(** * browser-automation: the browser process/protocol controller

    A shallow embedding of [automation_agent/browser_controller.py] and of
    [automation_agent/native_bridge/bridge.py], and the properties that the
    specification states about them.

    Conventions of the model:
    - a Python [str] or [bytes] value is a [string] holding its UTF-8 bytes;
    - wall-clock time and durations are integers in milliseconds
      ([0.5] seconds is [500], [timeout=5] is [5000]);
    - an exception is a value of type [exn]; a call that may raise returns
      [Result A = exn + A];
    - every effect on the outside world (spawning a process, an HTTP request,
      a sleep, a signal, a wait) is appended to the [trace] of the [World]
      in the order in which the code performs it. *)

From Stdlib Require Import ZArith Ascii String List Lia.
From stdpp Require Import base gmap strings list pretty.

Open Scope Z_scope.

(** ** Strings and [urllib.parse] *)

Module Urllib.

(** [_ALWAYS_SAFE] of [urllib.parse]: ASCII letters, digits and [_.-~]. *)
Definition always_safe (c : ascii) : bool :=
  let n := N_of_ascii c in
  ((65 <=? n) && (n <=? 90))%N || ((97 <=? n) && (n <=? 122))%N
  || ((48 <=? n) && (n <=? 57))%N
  || (n =? 95)%N || (n =? 46)%N || (n =? 45)%N || (n =? 126)%N.

(** One digit of ['%{:02X}'.format(b)]. *)
Definition hex_digit (n : N) : ascii :=
  if (n <? 10)%N then ascii_of_N (48 + n) else ascii_of_N (55 + n).

Definition percent (c : ascii) : string :=
  let n := N_of_ascii c in
  String "%" (String (hex_digit (n / 16)) (String (hex_digit (n mod 16)) "")).

(** [quote_plus(s, safe='')] on one byte: safe bytes stay, a space becomes
    [+], every other byte becomes [%XX]. *)
Definition quote_byte (c : ascii) : string :=
  if always_safe c then String c ""
  else if Ascii.eqb c " " then "+"
  else percent c.

Fixpoint quote_plus (s : string) : string :=
  match s with
  | EmptyString => ""
  | String c s' => quote_byte c +:+ quote_plus s'
  end.

(** [urlencode(query)] for a dict of [str] keys and values, in insertion
    order: [k=v] pairs joined by [&]. *)
Fixpoint urlencode (query : list (string * string)) : string :=
  match query with
  | [] => ""
  | [(k, v)] => quote_plus k +:+ "=" +:+ quote_plus v
  | (k, v) :: rest => quote_plus k +:+ "=" +:+ quote_plus v +:+ "&" +:+ urlencode rest
  end.

(** The decoding that a server applies to a query component
    ([urllib.parse.unquote_plus]): [+] is a space, [%XX] is the byte with
    that hexadecimal code, anything else stands for itself. *)
Definition hex_value (c : ascii) : option N :=
  let n := N_of_ascii c in
  if ((48 <=? n) && (n <=? 57))%N then Some (n - 48)%N
  else if ((65 <=? n) && (n <=? 70))%N then Some (n - 55)%N
  else if ((97 <=? n) && (n <=? 102))%N then Some (n - 87)%N
  else None.

Fixpoint unquote_plus (s : string) : string :=
  match s with
  | EmptyString => ""
  | String c s1 =>
      if Ascii.eqb c "+" then String " " (unquote_plus s1)
      else if Ascii.eqb c "%" then
        match s1 with
        | String h (String l rest) =>
            match hex_value h, hex_value l with
            | Some a, Some b => String (ascii_of_N (16 * a + b)) (unquote_plus rest)
            | _, _ => String c (unquote_plus s1)
            end
        | _ => String c (unquote_plus s1)
        end
      else String c (unquote_plus s1)
  end.

End Urllib.

(** [sub in s] and [s.endswith(suffix)] on Python strings. *)
Fixpoint contains (sub s : string) : bool :=
  String.prefix sub s ||
  match s with
  | EmptyString => false
  | String _ s' => contains sub s'
  end.

Definition endswith (s suffix : string) : bool :=
  String.prefix (String.rev suffix) (String.rev s).

(** [not v] for a value obtained with [dict.get]: [None] and the empty string
    are falsy. *)
Definition falsy (v : option string) : bool :=
  match v with
  | None | Some EmptyString => true
  | Some (String _ _) => false
  end.

(** ** Exceptions *)

Inductive exn_class : Type :=
  | HTTPError            (* browser_controller.HTTPError *)
  | URLError             (* urllib: connection refused, timeout *)
  | UrllibHTTPError      (* urllib.error.HTTPError: a non-2xx status *)
  | JSONDecodeError      (* json.loads *)
  | UnicodeDecodeError   (* bytes.decode *)
  | ValueError
  | TimeoutError
  | OSError              (* the executable could not be started *)
  | TimeoutExpired       (* subprocess.TimeoutExpired *)
  | AssertionError
  | SecurityError        (* native_bridge.SecurityError *)
  | CalledProcessError (returncode : Z) (cmd : list string) (output stderr : string).

(** An exception: its class, [str(exc)], and [exc.__cause__] as set by
    [raise ... from ...]. *)
#[warnings="-register-all"]
Inductive exn : Type :=
  | Exn (cls : exn_class) (msg : string) (cause : option exn).

Definition exn_cls (e : exn) : exn_class := let 'Exn c _ _ := e in c.
Definition str (e : exn) : string := let 'Exn _ m _ := e in m.
Definition exn_cause (e : exn) : option exn := let 'Exn _ _ c := e in c.

Definition Result (A : Type) : Type := (exn + A)%type.

(** ** The outside world *)

(** A [subprocess.Popen] object.  [exit_time] is the time at which the
    process is (or was) gone, if that is settled; [term_delay] is how long the
    process takes to exit once it receives SIGTERM ([None]: it ignores the
    signal). *)
Record Popen : Type := mkPopen {
  exit_time : option Z;
  term_delay : option Z;
  returncode : Z
}.

Inductive Event : Type :=
  | EvSpawn (args : list string)        (* process_factory(args) *)
  | EvRequest (url : string)            (* http_client.request(url) *)
  | EvSleep (ms : Z)                    (* time.sleep *)
  | EvSignal (pid : nat)                (* popen.terminate(): SIGTERM *)
  | EvWait (pid : nat) (timeout : Z).   (* popen.wait(timeout) *)

Record World : Type := mkWorld {
  clock : Z;                 (* time.time(), in milliseconds *)
  processes : list Popen;    (* the processes spawned so far; pid = index *)
  trace : list Event         (* the effects performed so far, oldest first *)
}.

Definition emit (ev : Event) (w : World) : World :=
  mkWorld (clock w) (processes w) (trace w ++ [ev]).

Definition advance (dt : Z) (w : World) : World :=
  mkWorld (clock w + dt) (processes w) (trace w).

(** [popen.poll() is None] at time [now]. *)
Definition popen_alive (now : Z) (p : Popen) : bool :=
  match exit_time p with
  | Some t => now <? t
  | None => true
  end.

(** The effect of SIGTERM on a process at time [now]. *)
Definition popen_signalled (now : Z) (p : Popen) : Popen :=
  match term_delay p with
  | Some d =>
      let t := match exit_time p with
               | Some t0 => Z.min t0 (now + d)
               | None => now + d
               end in
      mkPopen (Some t) (term_delay p) (returncode p)
  | None => p
  end.

(** An HTTP client, as injected into the controller: the outcome of
    [request(url)] in a given world (which holds the time, the processes and
    everything requested so far) is the time the call takes and either the
    body or the exception raised. *)
Definition HTTPClient : Type := World -> string -> N * Result string.

(** A process factory: the outcome of [process_factory(args)]. *)
Definition ProcessFactory : Type := World -> list string -> Result Popen.

(** [_DefaultHTTPClient.request]: [urlopen] is what [urllib] does with the
    request; whatever it raises is wrapped in [HTTPError]. *)
Definition DefaultHTTPClient_request (urlopen : HTTPClient) : HTTPClient :=
  fun w url =>
    match urlopen w url with
    | (dt, inr body) => (dt, inr body)
    | (dt, inl exc) =>
        (dt, inl (Exn HTTPError
                    ("DevTools endpoint request failed for " +:+ url +:+ ": " +:+ str exc)
                    (Some exc)))
    end.


(** ** Effects: state passing over the world, with exceptions *)

Definition IO (A : Type) : Type := World -> Result A * World.

Definition ret {A} (x : A) : IO A := fun w => (inr x, w).

Definition raise {A} (e : exn) : IO A := fun w => (inl e, w).

Definition bind {A B} (m : IO A) (k : A -> IO B) : IO B :=
  fun w =>
    match m w with
    | (inr x, w') => k x w'
    | (inl e, w') => (inl e, w')
    end.

(** [try: m  except Exception as exc: h exc] *)
Definition try_except {A} (m : IO A) (h : exn -> IO A) : IO A :=
  fun w =>
    match m w with
    | (inr x, w') => (inr x, w')
    | (inl e, w') => h e w'
    end.

Notation "'let*' x ':=' m 'in' k" := (bind m (fun x => k))
  (at level 10, x name, m at level 100, k at level 200).

(** [time.sleep(ms)] *)
Definition sleep (ms : Z) : IO unit :=
  fun w => (inr tt, advance ms (emit (EvSleep ms) w)).

(** [http_client.request(url)]: the request is recorded, takes the time the
    client says, and returns or raises what the client says. *)
Definition http_request (client : HTTPClient) (url : string) : IO string :=
  fun w =>
    let '(dt, r) := client w url in
    (r, advance (Z.of_N dt) (emit (EvRequest url) w)).

(** ** [subprocess.Popen] and [_ProcessHandle] *)

Module ProcessHandle.

Definition lookup (w : World) (pid : nat) : option Popen := processes w !! pid.

(** [self.popen.poll() is None]; a pid that was never spawned is not
    running. *)
Definition is_running (pid : nat) (w : World) : bool :=
  match lookup w pid with
  | Some p => popen_alive (clock w) p
  | None => false
  end.

(** [self.popen.terminate()]: SIGTERM is sent. *)
Definition popen_terminate (pid : nat) : IO unit :=
  fun w =>
    let w1 := emit (EvSignal pid) w in
    (inr tt,
     mkWorld (clock w1)
             (alter (popen_signalled (clock w)) pid (processes w1))
             (trace w1)).

(** [self.popen.wait(timeout)]: returns the exit status as soon as the
    process is gone, raises [TimeoutExpired] after [timeout] otherwise. *)
Definition popen_wait (pid : nat) (timeout : Z) : IO Z :=
  fun w =>
    let w1 := emit (EvWait pid timeout) w in
    match lookup w pid with
    | Some p =>
        match exit_time p with
        | Some t =>
            if t <=? clock w + timeout
            then (inr (returncode p), advance (Z.max 0 (t - clock w)) w1)
            else (inl (Exn TimeoutExpired "timed out" None), advance timeout w1)
        | None => (inl (Exn TimeoutExpired "timed out" None), advance timeout w1)
        end
    | None => (inl (Exn TimeoutExpired "timed out" None), advance timeout w1)
    end.

(** [_ProcessHandle.terminate] *)
Definition terminate (pid : nat) : IO unit :=
  fun w => if is_running pid w then popen_terminate pid w else ret tt w.

(** [_ProcessHandle.wait] *)
Definition wait (pid : nat) (timeout : Z) : IO (option Z) :=
  try_except (let* rc := popen_wait pid timeout in ret (Some rc))
             (fun _ => ret None).

End ProcessHandle.

(** ** [BrowserController] *)

Record BrowserController : Type := mkController {
  chrome_path : string;
  remote_debugging_port : Z;
  host : string;
  startup_timeout : Z;                 (* milliseconds *)
  _http_client : HTTPClient;
  _process_factory : ProcessFactory;
  _process : option nat                (* the held [_ProcessHandle], by pid *)
}.

(** The constructor's defaults: [urlopen] and [popen] are what [urllib] and
    [subprocess.Popen] do on the machine. *)
Definition default_controller (urlopen : HTTPClient) (popen : ProcessFactory)
  : BrowserController :=
  mkController "google-chrome" 9222 "127.0.0.1" 15000
               (DefaultHTTPClient_request urlopen) popen None.

Definition set_process (self : BrowserController) (h : option nat) : BrowserController :=
  mkController (chrome_path self) (remote_debugging_port self) (host self)
               (startup_timeout self) (_http_client self) (_process_factory self) h.

(** An action is a dict with string keys; the values that matter are
    strings. *)
Abbreviation Action := (gmap string string).

Section Controller.

(** The decoded JSON values are opaque to the controller. [json_loads]
    stands for [json.loads(payload.decode("utf-8"))], which returns the
    value or raises. *)
Context {json : Type}.
Variable json_loads : string -> Result json.

Definition base_url (self : BrowserController) : string :=
  "http://" +:+ host self +:+ ":" +:+ pretty (remote_debugging_port self).

Definition _request (self : BrowserController) (path : string) : IO string :=
  let url := base_url self +:+ path in
  http_request (_http_client self) url.

Definition decode (payload : string) : IO json :=
  fun w => (json_loads payload, w).

Definition list_tabs (self : BrowserController) : IO json :=
  let* payload := _request self "/json/list" in
  decode payload.

Definition open_tab (self : BrowserController) (url : string) : IO json :=
  let query := Urllib.urlencode [("url", url)] in
  let* payload := _request self ("/json/new?" +:+ query) in
  decode payload.

Definition close_tab (self : BrowserController) (target_id : string) : IO json :=
  let* payload := _request self ("/json/close/" +:+ target_id) in
  decode payload.

Definition activate_tab (self : BrowserController) (target_id : string) : IO json :=
  let* payload := _request self ("/json/activate/" +:+ target_id) in
  decode payload.

(** [f"{action_type}"] for the value of [action.get("type")]. *)
Definition format_type (action_type : option string) : string :=
  match action_type with
  | Some s => s
  | None => "None"
  end.

(** [execute_action]: [action.get(k)] is the lookup [action !! k]; [not v]
    holds for [None] and for the empty string. *)
Definition execute_action (self : BrowserController) (action : Action) : IO json :=
  let action_type := action !! "type" in
  if decide (action_type = Some "open_url") then
    match action !! "url" with
    | Some (String c s) => open_tab self (String c s)
    | _ => raise (Exn ValueError "open_url action requires a 'url'" None)
    end
  else if decide (action_type = Some "activate") then
    match action !! "target_id" with
    | Some (String c s) => activate_tab self (String c s)
    | _ => raise (Exn ValueError "activate action requires a 'target_id'" None)
    end
  else if decide (action_type = Some "close") then
    match action !! "target_id" with
    | Some (String c s) => close_tab self (String c s)
    | _ => raise (Exn ValueError "close action requires a 'target_id'" None)
    end
  else raise (Exn ValueError ("Unsupported action type: " +:+ format_type action_type) None).

(** The [for] loop of [perform_actions], with [results] as accumulator. *)
Fixpoint perform_loop (self : BrowserController) (actions : list Action)
         (results : list json) : IO (list json) :=
  match actions with
  | [] => ret results
  | action :: rest =>
      let* r := execute_action self action in
      perform_loop self rest (results ++ [r])
  end.

Definition perform_actions (self : BrowserController) (actions : list Action) : IO (list json) :=
  perform_loop self actions [].

(** *** Process lifecycle *)

(** The argument list that [launch_browser] builds. *)
Definition launch_args (self : BrowserController) (headless : bool)
           (user_data_dir : option string)
           (additional_args : option (list string)) : list string :=
  let args := [ chrome_path self;
                "--remote-debugging-port=" +:+ pretty (remote_debugging_port self);
                "--remote-allow-origins=*" ] in
  let args := if headless then args ++ ["--headless=new"] else args in
  let args := match user_data_dir with
              | Some (String c s) => args ++ ["--user-data-dir=" +:+ String c s]
              | _ => args
              end in
  match additional_args with
  | Some (a :: l) => args ++ (a :: l)
  | _ => args
  end.

(** [self._process_factory(args)]: the call is recorded; when the factory
    returns a process, it gets the next pid. *)
Definition spawn (self : BrowserController) (args : list string) : IO nat :=
  fun w =>
    match _process_factory self w args with
    | inr p =>
        (inr (length (processes w)),
         mkWorld (clock w) (processes w ++ [p]) (trace w ++ [EvSpawn args]))
    | inl e => (inl e, emit (EvSpawn args) w)
    end.

(** [self._process and self._process.is_running()] *)
Definition is_browser_running (self : BrowserController) (w : World) : bool :=
  match _process self with
  | Some pid => ProcessHandle.is_running pid w
  | None => false
  end.

(** The [while] loop of [_wait_until_ready]; [time.time()] is [clock w].
    [fuel] bounds the number of iterations; [None] means the bound was too
    small. *)
Fixpoint wait_loop (fuel : nat) (self : BrowserController) (deadline : Z)
         (last_error : option exn) (w : World) : option (Result unit * World) :=
  match fuel with
  | O => None
  | S fuel' =>
      if clock w <? deadline then
        match list_tabs self w with
        | (inr _, w1) => Some (inr tt, w1)
        | (inl exc, w1) =>
            let '(_, w2) := sleep 500 w1 in
            wait_loop fuel' self deadline (Some exc) w2
        end
      else
        Some (inl (Exn TimeoutError "Browser did not become ready in time" last_error), w)
  end.

Definition _wait_until_ready (fuel : nat) (self : BrowserController) (w : World)
  : option (Result unit * World) :=
  let deadline := clock w + startup_timeout self in
  wait_loop fuel self deadline None w.

(** [launch_browser]; the result holds the controller after the call. *)
Definition launch_browser (fuel : nat) (self : BrowserController) (headless : bool)
           (user_data_dir : option string) (additional_args : option (list string))
           (w : World) : option (Result unit * BrowserController * World) :=
  if is_browser_running self w then Some (inr tt, self, w)
  else
    let args := launch_args self headless user_data_dir additional_args in
    match spawn self args w with
    | (inl e, w1) => Some (inl e, self, w1)
    | (inr popen, w1) =>
        let self1 := set_process self (Some popen) in
        match _wait_until_ready fuel self1 w1 with
        | Some (r, w2) => Some (r, self1, w2)
        | None => None
        end
    end.

Definition terminate_browser (self : BrowserController) (w : World)
  : Result unit * BrowserController * World :=
  match _process self with
  | Some pid =>
      match (let* _ := ProcessHandle.terminate pid in
             let* _ := ProcessHandle.wait pid 5000 in
             ret tt) w with
      | (inr _, w') => (inr tt, set_process self None, w')
      | (inl e, w') => (inl e, self, w')
      end
  | None => (inr tt, self, w)
  end.

End Controller.

(** ** [NativeBridge] *)

Module NativeBridge.

Record CompletedProcess : Type := mkCompleted {
  cp_args : list string;
  cp_returncode : Z;
  cp_stdout : string;
  cp_stderr : string
}.

Record t : Type := mkBridge {
  allowlist : gmap string (list string);
  environment : gmap string string
}.

(** What the operating system does with a command line and an environment:
    the command cannot be started (an exception), or it runs to completion
    with an exit status and its captured output streams. *)
Definition OS : Type := list string -> gmap string string -> Result (Z * string * string).

(** The commands handed to [subprocess.run] so far, oldest first. *)
Definition Executed : Type := list (list string).

(** [subprocess.run(args, env=env, text=True, capture_output=True,
    check=True)] *)
Definition subprocess_run (os : OS) (args : list string) (env : gmap string string)
           (log : Executed) : Result CompletedProcess * Executed :=
  match os args env with
  | inl e => (inl e, log ++ [args])
  | inr (rc, out, err) =>
      if rc =? 0 then (inr (mkCompleted args rc out err), log ++ [args])
      else (inl (Exn (CalledProcessError rc args out err)
                     "Command returned non-zero exit status" None),
            log ++ [args])
  end.

Definition register (self : t) (name : string) (command : list string) : t :=
  mkBridge (<[name := command]> (allowlist self)) (environment self).

Definition is_allowed (self : t) (name : string) : bool :=
  bool_decide (is_Some (allowlist self !! name)).

(** [arg.startswith("--unsafe")] *)
Definition unsafe (arg : string) : bool := String.prefix "--unsafe" arg.

(** The [for arg in extra_args] loop of [run]. *)
Fixpoint extend_args (args : list string) (extra_args : list string) : Result (list string) :=
  match extra_args with
  | [] => inr args
  | arg :: rest =>
      if unsafe arg
      then inl (Exn SecurityError "Arguments containing '--unsafe' are blocked" None)
      else extend_args (args ++ [arg]) rest
  end.

(** [run]. [name in self.allowlist] followed by [self.allowlist[name]] is
    one lookup; [if extra_args:] skips [None] and the empty list. *)
Definition run (os : OS) (self : t) (name : string) (extra_args : option (list string))
           (log : Executed) : Result CompletedProcess * Executed :=
  match allowlist self !! name with
  | None =>
      (inl (Exn SecurityError ("Command '" +:+ name +:+ "' is not allowlisted") None), log)
  | Some base_cmd =>
      let args := base_cmd in
      let extended := match extra_args with
                      | Some (a :: l) => extend_args args (a :: l)
                      | _ => inr args
                      end in
      match extended with
      | inl e => (inl e, log)
      | inr args => subprocess_run os args (environment self) log
      end
  end.

End NativeBridge.

(** ** Test doubles

    The stand-ins of [tests/test_browser_controller.py], and a few more of
    the same kind, used to run the model on concrete inputs. *)

Module Fake.

Definition dq : string := String (ascii_of_N 34) "".

Definition quoted (s : string) : string := dq +:+ s +:+ dq.

(** [json.dumps({k: v})] *)
Definition json_object (k v : string) : string :=
  "{" +:+ quoted k +:+ ": " +:+ quoted v +:+ "}".

Definition starts_json_value (c : ascii) : bool :=
  let n := N_of_ascii c in
  (n =? 91)%N || (n =? 123)%N || (n =? 34)%N || (n =? 45)%N
  || ((48 <=? n) && (n <=? 57))%N
  || (n =? 116)%N || (n =? 102)%N || (n =? 110)%N.

(** A decoder to run examples with: a decoded value is kept as its text.
    It rejects, as [json.loads] does and with its message, a body that is
    empty or whose first byte cannot start a JSON value; the examples use
    it on such bodies and on complete JSON documents only. *)
Definition json_loads (body : string) : Result string :=
  match body with
  | String c _ =>
      if starts_json_value c then inr body
      else inl (Exn JSONDecodeError "Expecting value: line 1 column 1 (char 0)" None)
  | EmptyString =>
      inl (Exn JSONDecodeError "Expecting value: line 1 column 1 (char 0)" None)
  end.

(** [FakeHTTPClient.request] *)
Definition http_client : HTTPClient :=
  fun _ url =>
    if endswith url "/json/list" then (0%N, inr "[]")
    else if contains "/json/new" url then (0%N, inr (json_object "id" "target-1"))
    else if contains "/json/close" url || contains "/json/activate" url
         then (0%N, inr (json_object "status" "ok"))
    else (0%N, inl (Exn AssertionError ("Unexpected URL " +:+ url) None)).

Definition connection_refused : exn :=
  Exn URLError "<urlopen error [Errno 111] Connection refused>" None.

(** An endpoint that never comes up; each attempt takes 100 ms. *)
Definition refusing : HTTPClient :=
  fun _ _ => (100%N, inl connection_refused).

Definition is_request (ev : Event) : bool :=
  match ev with EvRequest _ => true | _ => false end.

Definition requests_so_far (w : World) : nat :=
  length (List.filter is_request (trace w)).

(** An endpoint that refuses the first [n] requests and then behaves as
    [http_client]. *)
Definition slow_start (n : nat) : HTTPClient :=
  fun w url =>
    if (requests_so_far w <? n)%nat then refusing w url else http_client w url.

(** An endpoint that answers every request with an HTML page. *)
Definition html_page : HTTPClient :=
  fun _ _ => (0%N, inr "<html>").

(** [FakeProcess]: runs until it is told to stop. *)
Definition process : Popen := mkPopen None (Some 0) 0.

Definition process_factory : ProcessFactory := fun _ _ => inr process.

(** The controller of the test fixture. *)
Definition controller : BrowserController :=
  mkController "/usr/bin/chrome" 9333 "127.0.0.1" 15000 http_client process_factory None.

(** The same controller talking to another endpoint. *)
Definition controller_with (client : HTTPClient) (timeout : Z) : BrowserController :=
  mkController "/usr/bin/chrome" 9333 "127.0.0.1" timeout client process_factory None.

Definition world0 : World := mkWorld 0 [] [].

(** A controller that holds the handle of a running [FakeProcess]. *)
Definition running_controller : BrowserController := set_process controller (Some 0%nat).

Definition running_world : World :=
  mkWorld 0 [process] [EvSpawn ["/usr/bin/chrome"; "--remote-debugging-port=9333";
                                "--remote-allow-origins=*"; "--headless=new"]].

(** The actions of [test_perform_actions_invokes_individual_actions]. *)
Definition three_actions : list Action :=
  [ {[ "type" := "open_url"; "url" := "https://example.com" ]};
    {[ "type" := "activate"; "target_id" := "target-1" ]};
    {[ "type" := "close"; "target_id" := "target-1" ]} ].

(** An operating system on which every command runs and exits with [rc],
    printing nothing. *)
Definition exits_with (rc : Z) : NativeBridge.OS := fun _ _ => inr (rc, "", "").

(** A bridge with one registered command. *)
Definition bridge : NativeBridge.t :=
  NativeBridge.register (NativeBridge.mkBridge ∅ ∅) "check" ["/usr/bin/false"].

End Fake.

(** ** Vocabulary of the specification *)

(** The field that an action of the given tag requires. *)
Definition required_field (tag : string) : option string :=
  if decide (tag = "open_url") then Some "url"
  else if decide (tag = "activate") then Some "target_id"
  else if decide (tag = "close") then Some "target_id"
  else None.

(** An action that the dispatcher must reject: its tag is none of the three,
    or the field that its tag requires is absent or empty. *)
Definition malformed (action : Action) : bool :=
  match action !! "type" with
  | Some tag =>
      match required_field tag with
      | Some f => falsy (action !! f)
      | None => true
      end
  | None => true
  end.

(** The field of a malformed action that is at fault: the required field
    that is missing, or [type] when the tag is not supported. *)
Definition offending_field (action : Action) : string :=
  match action !! "type" with
  | Some tag =>
      match required_field tag with
      | Some f => f
      | None => "type"
      end
  | None => "type"
  end.

(** The text of the error that rejects a malformed action. *)
Definition rejection (action : Action) : string :=
  match action !! "type" with
  | Some tag =>
      match required_field tag with
      | Some f => tag +:+ " action requires a '" +:+ f +:+ "'"
      | None => "Unsupported action type: " +:+ tag
      end
  | None => "Unsupported action type: None"
  end.

(** The four operations of the protocol client. *)
Inductive Operation : Type :=
  | ListTabs
  | OpenTab (url : string)
  | CloseTab (target_id : string)
  | ActivateTab (target_id : string).

Definition op_path (op : Operation) : string :=
  match op with
  | ListTabs => "/json/list"
  | OpenTab url => "/json/new?url=" +:+ Urllib.quote_plus url
  | CloseTab id => "/json/close/" +:+ id
  | ActivateTab id => "/json/activate/" +:+ id
  end.

Section Vocabulary.

Context {json : Type}.
Variable json_loads : string -> Result json.

Definition run_op (self : BrowserController) (op : Operation) : IO json :=
  match op with
  | ListTabs => list_tabs json_loads self
  | OpenTab url => open_tab json_loads self url
  | CloseTab id => close_tab json_loads self id
  | ActivateTab id => activate_tab json_loads self id
  end.

(** The operation that a well-formed action is dispatched to. *)
Definition action_op (action : Action) : option Operation :=
  if malformed action then None
  else
    match action !! "type" with
    | Some tag =>
        if decide (tag = "open_url") then OpenTab <$> action !! "url"
        else if decide (tag = "activate") then ActivateTab <$> action !! "target_id"
        else if decide (tag = "close") then CloseTab <$> action !! "target_id"
        else None
    | None => None
    end.

(** The protocol requests that dispatching an action issues: one for a
    well-formed action, none for a malformed one. *)
Definition action_requests (self : BrowserController) (action : Action) : list Event :=
  match action_op action with
  | Some op => [EvRequest (base_url self +:+ op_path op)]
  | None => []
  end.

(** [dispatched self w actions results w']: from [w], every action of
    [actions] is dispatched successfully, one after the other in list
    order, each in the world that its predecessor left; [results] are
    their results in that order and [w'] is the world after the last. *)
Inductive dispatched (self : BrowserController)
  : World -> list Action -> list json -> World -> Prop :=
  | dispatched_nil w : dispatched self w [] [] w
  | dispatched_cons w action r w1 rest results w' :
      execute_action json_loads self action w = (inr r, w1) ->
      dispatched self w1 rest results w' ->
      dispatched self w (action :: rest) (r :: results) w'.

(** [failed_attempts self deadline w errs w']: from [w], [length errs]
    [listTabs] attempts are made in a row; each starts before [deadline],
    fails with the corresponding error of [errs], and is followed by a
    sleep of 500 ms; [w'] is the world after the last sleep. *)
Inductive failed_attempts (self : BrowserController) (deadline : Z)
  : World -> list exn -> World -> Prop :=
  | failed_nil w : failed_attempts self deadline w [] w
  | failed_cons w exc w1 errs w' :
      clock w < deadline ->
      list_tabs json_loads self w = (inl exc, w1) ->
      failed_attempts self deadline (advance 500 (emit (EvSleep 500) w1)) errs w' ->
      failed_attempts self deadline w (exc :: errs) w'.

(** The events of [n] failed attempts: a request and a sleep of 500, [n]
    times. *)
Fixpoint polling_events (self : BrowserController) (n : nat) : list Event :=
  match n with
  | O => []
  | S n' =>
      EvRequest (base_url self +:+ "/json/list") :: EvSleep 500 :: polling_events self n'
  end.

End Vocabulary.

(** The world after a request to [url] that took [dt]. *)
Definition requested (url : string) (dt : N) (w : World) : World :=
  advance (Z.of_N dt) (emit (EvRequest url) w).

(** The error that the loop reports when it gives up after the failures
    [errs], having started with [last_error]. *)
Definition last_seen (last_error : option exn) (errs : list exn) : option exn :=
  match last errs with
  | Some e => Some e
  | None => last_error
  end.

(** A number of iterations that the loop cannot exceed: it sleeps 500 ms
    in each iteration but the last. *)
Definition enough_fuel (self : BrowserController) : nat :=
  S (Z.to_nat (startup_timeout self / 500 + 1)).

(** An event of the readiness poll. *)
Definition polling_event (ev : Event) : Prop :=
  match ev with
  | EvRequest _ | EvSleep _ => True
  | _ => False
  end.


Definition timeout_error (last_error : option exn) : exn :=
  Exn TimeoutError "Browser did not become ready in time" last_error.

(** The query encoding in the words of the standard, byte by byte: an
    unreserved character of RFC 3986 (a letter, a digit or one of [-._~])
    stands for itself, a space is written [+], and any other byte is written
    [%] followed by the two upper-case hexadecimal digits of its value. *)
Definition unreserved_characters : string :=
  "ABCDEFGHIJKLMNOPQRSTUVWXYZabcdefghijklmnopqrstuvwxyz0123456789-._~".

Definition unreserved (c : ascii) : bool :=
  existsb (Ascii.eqb c) (list_ascii_of_string unreserved_characters).

Definition hexadecimal_digits : string := "0123456789ABCDEF".

Definition hexadecimal_digit (n : N) : option ascii :=
  String.get (N.to_nat n) hexadecimal_digits.

Inductive query_encoded : string -> string -> Prop :=
  | encoded_empty : query_encoded "" ""
  | encoded_unreserved c s t :
      unreserved c = true ->
      query_encoded s t ->
      query_encoded (String c s) (String c t)
  | encoded_space s t :
      query_encoded s t ->
      query_encoded (String " " s) (String "+" t)
  | encoded_escape c high low s t :
      unreserved c = false ->
      c <> " "%char ->
      hexadecimal_digit (N_of_ascii c / 16) = Some high ->
      hexadecimal_digit (N_of_ascii c mod 16) = Some low ->
      query_encoded s t ->
      query_encoded (String c s) (String "%" (String high (String low t))).

(** What the specification asks of a [ProtocolError]: it is the controller's
    [HTTPError], its text shows the failing URL, and it has a cause. *)
Definition carries_context (url : string) (e : exn) : Prop :=
  exn_cls e = HTTPError /\ contains url (str e) = true /\ is_Some (exn_cause e).

(** ** [NativeBridge.describe] and [format_command] *)

Module Shlex.

(** The bytes that [shlex.quote] leaves alone: [[\w@%+=:,./-]] with
    [re.ASCII]. *)
Definition shell_safe (c : ascii) : bool :=
  let n := N_of_ascii c in
  ((65 <=? n) && (n <=? 90))%N || ((97 <=? n) && (n <=? 122))%N
  || ((48 <=? n) && (n <=? 57))%N || (n =? 95)%N
  || (n =? 64)%N || (n =? 37)%N || (n =? 43)%N || (n =? 61)%N || (n =? 58)%N
  || (n =? 44)%N || (n =? 46)%N || (n =? 47)%N || (n =? 45)%N.

Definition squote : ascii := ascii_of_N 39.
Definition dquote : ascii := ascii_of_N 34.
Definition backslash : ascii := ascii_of_N 92.

(** [s.replace("'", "'\"'\"'")] with the quote characters written by
    code: every single quote becomes the five bytes
    single, double, single, double, single. *)
Fixpoint escape_quotes (s : string) : string :=
  match s with
  | EmptyString => ""
  | String c s' =>
      if Ascii.eqb c squote
      then String squote (String dquote (String squote (String dquote
             (String squote (escape_quotes s')))))
      else String c (escape_quotes s')
  end.

(** [shlex.quote] *)
Definition quote (s : string) : string :=
  match s with
  | EmptyString => String squote (String squote "")
  | String _ _ =>
      if forallb shell_safe (list_ascii_of_string s) then s
      else String squote (escape_quotes s +:+ String squote "")
  end.

(** [sep.join(parts)] *)
Fixpoint join (sep : string) (parts : list string) : string :=
  match parts with
  | [] => ""
  | [part] => part
  | part :: rest => part +:+ sep +:+ join sep rest
  end.

(** Word splitting as a POSIX shell (and [shlex.split]) does it, to read a
    formatted command back. The lexer is between words ([Blank]), inside an
    unquoted stretch of a word, or inside single or double quotes. Blanks
    separate words outside quotes; a backslash outside quotes makes the next
    byte literal; inside double quotes it does so before a double quote or a
    backslash only. [None]: a quote is left open or a backslash ends the
    text. *)
Inductive lex_state : Type := Blank | Unquoted | Single | Double.

Definition is_blank (c : ascii) : bool :=
  let n := N_of_ascii c in
  (n =? 32)%N || (n =? 9)%N || (n =? 10)%N || (n =? 13)%N.

Definition snoc (tok : string) (c : ascii) : string := tok +:+ String c "".

Fixpoint split_go (st : lex_state) (tok : string) (s : string) : option (list string) :=
  match s with
  | EmptyString =>
      match st with
      | Blank => Some []
      | Unquoted => Some [tok]
      | Single | Double => None
      end
  | String c rest =>
      match st with
      | Blank | Unquoted =>
          if is_blank c then
            match st with
            | Unquoted => cons tok <$> split_go Blank "" rest
            | _ => split_go Blank "" rest
            end
          else if Ascii.eqb c squote then split_go Single tok rest
          else if Ascii.eqb c dquote then split_go Double tok rest
          else if Ascii.eqb c backslash then
            match rest with
            | String e rest' => split_go Unquoted (snoc tok e) rest'
            | EmptyString => None
            end
          else split_go Unquoted (snoc tok c) rest
      | Single =>
          if Ascii.eqb c squote then split_go Unquoted tok rest
          else split_go Single (snoc tok c) rest
      | Double =>
          if Ascii.eqb c dquote then split_go Unquoted tok rest
          else if Ascii.eqb c backslash then
            match rest with
            | String e rest' =>
                if Ascii.eqb e dquote || Ascii.eqb e backslash
                then split_go Double (snoc tok e) rest'
                else split_go Double (snoc (snoc tok c) e) rest'
            | EmptyString => None
            end
          else split_go Double (snoc tok c) rest
      end
  end.

Definition split (s : string) : option (list string) := split_go Blank "" s.

End Shlex.

(** [format_command] of [native_bridge/bridge.py] *)
Definition format_command (command : list string) : string :=
  Shlex.join " " (map Shlex.quote command).

(** [NativeBridge.describe]: a copy of the allowlist. *)
Definition describe (self : NativeBridge.t) : gmap string (list string) :=
  NativeBridge.allowlist self.

(** ** [RuleBasedPlanner] and [ActionExecutor] *)

(** What a call that involves the planner can raise: the [IndexError] of
    [request.split("search for", 1)[1]], or an exception of the
    controller. *)
Inductive raised : Type :=
  | IndexError
  | Raised (e : exn).

(** A planner is anything with a [plan] method. *)
Definition Planner : Type := string -> raised + list Action.

Module RuleBasedPlanner.

(** [s.replace(" ", "+")] *)
Fixpoint replace_spaces (s : string) : string :=
  match s with
  | EmptyString => ""
  | String c s' =>
      String (if Ascii.eqb c " " then "+"%char else c) (replace_spaces s')
  end.

(** [s[n:]] counts characters, and a character is a lead byte followed by
    its UTF-8 continuation bytes (those from 128 to 191). *)
Definition is_continuation (c : ascii) : bool :=
  let n := N_of_ascii c in ((128 <=? n) && (n <=? 191))%N.

Fixpoint drop_continuation (s : string) : string :=
  match s with
  | EmptyString => ""
  | String c s' => if is_continuation c then drop_continuation s' else s
  end.

Fixpoint drop_chars (n : nat) (s : string) : string :=
  match n with
  | O => s
  | S n' =>
      match s with
      | EmptyString => ""
      | String _ s' => drop_chars n' (drop_continuation s')
      end
  end.

Fixpoint drop_bytes (n : nat) (s : string) : string :=
  match n, s with
  | S n', String _ s' => drop_bytes n' s'
  | _, _ => s
  end.

(** [s.split(sep, 1)[1]]: what follows the first occurrence of [sep];
    [None] is the [IndexError] raised when [sep] does not occur. *)
Fixpoint after_first (sep s : string) : option string :=
  if String.prefix sep s then Some (drop_bytes (String.length sep) s)
  else
    match s with
    | EmptyString => None
    | String _ s' => after_first sep s'
    end.

(** [self.default_search_engine.format(query=query)] for the default
    engine, ["https://www.google.com/search?q={query}"], as
    [RuleBasedPlanner()] has it. *)
Definition search_url (query : string) : string :=
  "https://www.google.com/search?q=" +:+ query.

(** [{"type": "open_url", "url": url}] *)
Definition open_url (url : string) : Action :=
  {[ "type" := "open_url"; "url" := url ]}.

Section Plan.

(** [str.lower] and [str.strip], which work on characters. *)
Variable lower : string -> string.
Variable strip : string -> string.

Definition plan : Planner :=
  fun request =>
    let lowered := strip (lower request) in
    if String.prefix "open " lowered then
      let url := strip (drop_chars 5 request) in
      let url := if negb (String.prefix "http" url)
                 then search_url (replace_spaces url)
                 else url in
      inr [open_url url]
    else if contains "search for" lowered then
      match after_first "search for" request with
      | Some rest =>
          let query := strip rest in
          let url := search_url (replace_spaces query) in
          inr [open_url url]
      | None => inl IndexError
      end
    else inr [open_url (search_url (replace_spaces request))].

End Plan.

(** [str.lower] and [str.strip] on ASCII text, to run examples with. *)
Definition ascii_lower_char (c : ascii) : ascii :=
  let n := N_of_ascii c in
  if ((65 <=? n) && (n <=? 90))%N then ascii_of_N (n + 32) else c.

Fixpoint ascii_lower (s : string) : string :=
  match s with
  | EmptyString => ""
  | String c s' => String (ascii_lower_char c) (ascii_lower s')
  end.

Definition is_space (c : ascii) : bool :=
  let n := N_of_ascii c in
  ((9 <=? n) && (n <=? 13))%N || ((28 <=? n) && (n <=? 32))%N.

Fixpoint lstrip (s : string) : string :=
  match s with
  | EmptyString => ""
  | String c s' => if is_space c then lstrip s' else s
  end.

Definition ascii_strip (s : string) : string :=
  String.rev (lstrip (String.rev (lstrip s))).

End RuleBasedPlanner.

Module ActionExecutor.

Record t : Type := mkExecutor {
  browser_controller : BrowserController;
  planner : Planner
}.

(** What [execute] returns and [stream_execution] yields: the planned
    actions in a dry run, the results of the controller otherwise. *)
Definition Item (json : Type) : Type := (Action + json)%type.

Section Executor.

Context {json : Type}.
Variable json_loads : string -> Result json.

Definition execute (self : t) (request : string) (dry_run : bool) (w : World)
  : (raised + list (Item json)) * World :=
  match planner self request with
  | inl err => (inl err, w)
  | inr plan =>
      if dry_run then (inr (map inl plan), w)
      else
        match perform_actions json_loads (browser_controller self) plan w with
        | (inr results, w') => (inr (map inr results), w')
        | (inl e, w') => (inl (Raised e), w')
        end
  end.

(** The second loop of [stream_execution], run by a consumer that takes
    every item: [yielded] are the items handed out so far. *)
Fixpoint stream_loop (self : t) (plan : list Action) (yielded : list (Item json))
         (w : World) : list (Item json) * option raised * World :=
  match plan with
  | [] => (yielded, None, w)
  | action :: rest =>
      match execute_action json_loads (browser_controller self) action w with
      | (inr r, w') => stream_loop self rest (yielded ++ [inr r]) w'
      | (inl e, w') => (yielded, Some (Raised e), w')
      end
  end.

(** [stream_execution], consumed to its end: the items it yielded, the
    exception that ended it if one did, and the world it left. *)
Definition stream_execution (self : t) (request : string) (dry_run : bool) (w : World)
  : list (Item json) * option raised * World :=
  match planner self request with
  | inl err => ([], Some err, w)
  | inr plan =>
      if dry_run then (map inl plan, None, w)
      else stream_loop self plan [] w
  end.

End Executor.

End ActionExecutor.

(** ** The command line: [main] for the [run] command *)

Module Cli.

(** The parsed arguments of [run]. *)
Record RunArgs : Type := mkRunArgs {
  request : string;
  arg_chrome_path : string;
  port : Z;
  headless : bool;
  no_launch : bool;
  dry_run : bool
}.

(** What [main] leaves behind: the exit status or the exception that
    escaped, the items printed, the controller and the world. *)
Record Outcome (json : Type) : Type := mkOutcome {
  status : raised + Z;
  printed : list (ActionExecutor.Item json);
  controller : BrowserController;
  world : World
}.

Arguments mkOutcome {json}.
Arguments status {json}.
Arguments printed {json}.
Arguments controller {json}.
Arguments world {json}.

Section Main.

Context {json : Type}.
Variable json_loads : string -> Result json.
(** The machine: what [urllib] and [subprocess.Popen] do, and the two
    string functions of the planner. *)
Variable urlopen : HTTPClient.
Variable popen : ProcessFactory.
Variable lower : string -> string.
Variable strip : string -> string.

(** [BrowserController(chrome_path=args.chrome_path,
    remote_debugging_port=args.port)] *)
Definition new_controller (args : RunArgs) : BrowserController :=
  mkController (arg_chrome_path args) (port args) "127.0.0.1" 15000
               (DefaultHTTPClient_request urlopen) popen None.

(** The [finally] clause. *)
Definition cleanup (args : RunArgs) (self : BrowserController) (w : World)
  : BrowserController * World :=
  if negb (no_launch args) && is_browser_running self w
  then let '(_, self', w') := terminate_browser self w in (self', w')
  else (self, w).

(** The body of [main] for [run], from the controller on. *)
Definition main_run (fuel : nat) (args : RunArgs) (w : World) : option (Outcome json) :=
  let self := new_controller args in
  let launched :=
    if negb (no_launch args)
    then launch_browser json_loads fuel self (headless args) None None w
    else Some (inr tt, self, w) in
  match launched with
  | None => None
  | Some (inl e, self1, w1) => Some (mkOutcome (inl (Raised e)) [] self1 w1)
  | Some (inr _, self1, w1) =>
      let executor := ActionExecutor.mkExecutor self1 (RuleBasedPlanner.plan lower strip) in
      let '(items, err, w2) :=
        ActionExecutor.stream_execution json_loads executor (request args) (dry_run args) w1 in
      let '(self3, w3) := cleanup args self1 w2 in
      Some (mkOutcome (match err with Some e => inl e | None => inr 0 end) items self3 w3)
  end.

End Main.

End Cli.

(** ** More test doubles *)

Module Doubles.

(** A machine on which the browser cannot be started. *)
Definition no_such_file : exn :=
  Exn OSError "[Errno 2] No such file or directory: '/usr/bin/chrome'" None.

Definition failing_factory : ProcessFactory := fun _ _ => inl no_such_file.

Definition controller_without_browser : BrowserController :=
  mkController "/usr/bin/chrome" 9333 "127.0.0.1" 15000 Fake.http_client failing_factory None.

(** A process that ignores SIGTERM and never exits by itself. *)
Definition stubborn_process : Popen := mkPopen None None 0.

Definition stubborn_world : World := mkWorld 0 [stubborn_process] [].

(** Two processes; the controller of [Fake.running_controller] holds the
    first. *)
Definition two_processes : World := mkWorld 0 [Fake.process; stubborn_process] [].

Definition close_action : Action :=
  {[ "type" := "close"; "target_id" := "target-1" ]}.

(** The same action with fields that the dispatcher has no use for. *)
Definition close_action_annotated : Action :=
  {[ "type" := "close"; "target_id" := "target-1";
     "url" := "https://example.com"; "note" := "second tab" ]}.

Definition run_args (no_launch dry_run : bool) : Cli.RunArgs :=
  Cli.mkRunArgs "open https://example.com" "/usr/bin/chrome" 9333 true no_launch dry_run.

(** The launch of [run] against an endpoint that refuses every connection,
    and against the fake endpoint. *)
Definition failed_launch : option (Result unit * BrowserController * World) :=
  Eval vm_compute in
    launch_browser Fake.json_loads 40
      (Cli.new_controller Fake.refusing Fake.process_factory (run_args false false))
      true None None Fake.world0.

Definition good_launch : option (Result unit * BrowserController * World) :=
  Eval vm_compute in
    launch_browser Fake.json_loads 40
      (Cli.new_controller Fake.http_client Fake.process_factory (run_args false false))
      true None None Fake.world0.

End Doubles.

(** * Properties *)

(** ** Strings *)

Lemma prefix_app_r (sub s t : string) :
  String.prefix sub s = true -> String.prefix sub (s +:+ t) = true.
Proof.
  revert s. induction sub as [|c sub IH]; intros s.
  - intros _. by destruct (s +:+ t).
  - destruct s as [|d s]; [done|].
    change (String d s +:+ t) with (String d (s +:+ t)).
    cbn [String.prefix].
    destruct (ascii_dec c d); [apply IH | done].
Qed.

Lemma contains_app_r (sub s t : string) :
  contains sub s = true -> contains sub (s +:+ t) = true.
Proof.
  induction s as [|d s IH].
  - cbn [contains]. rewrite orb_false_r. intros H. destruct sub; [|done].
    by destruct (EmptyString +:+ t).
  - change (String d s +:+ t) with (String d (s +:+ t)). cbn [contains].
    intros [H|H]%orb_true_iff; apply orb_true_iff.
    + left. apply (prefix_app_r sub (String d s) t H).
    + right. auto.
Qed.

Lemma contains_app_l (sub s t : string) :
  contains sub t = true -> contains sub (s +:+ t) = true.
Proof.
  induction s as [|d s IH]; [done|].
  change (String d s +:+ t) with (String d (s +:+ t)). cbn [contains].
  intros H. apply orb_true_iff. right. auto.
Qed.

Lemma contains_refl (s : string) : contains s s = true.
Proof.
  assert (Hp : forall u, String.prefix u u = true).
  { induction u as [|c u IH]; simpl; [done|]. by destruct (ascii_dec c c). }
  destruct s; simpl; [done|]. apply orb_true_iff. left. apply (Hp (String a s)).
Qed.

(** ** Query encoding *)

Lemma unquote_quote_byte (c : ascii) (t : string) :
  Urllib.unquote_plus (Urllib.quote_byte c +:+ t) = String c (Urllib.unquote_plus t).
Proof. destruct c as [[] [] [] [] [] [] [] []]; reflexivity. Qed.

(** Decoding an encoded string gives the string back. *)
Lemma unquote_quote_plus (s : string) :
  Urllib.unquote_plus (Urllib.quote_plus s) = s.
Proof.
  induction s as [|c s IH]; [reflexivity|].
  cbn [Urllib.quote_plus]. rewrite unquote_quote_byte. by rewrite IH.
Qed.

(** [quote_plus] encodes as the standard says, and nothing else does. *)
Lemma quote_byte_encoded (c : ascii) (s t : string) :
  query_encoded s t -> query_encoded (String c s) (Urllib.quote_byte c +:+ t).
Proof.
  destruct c as [[] [] [] [] [] [] [] []]; intros H; vm_compute;
    first [ apply encoded_unreserved; [reflexivity | exact H]
          | apply encoded_space; exact H
          | apply encoded_escape;
            [reflexivity | discriminate | reflexivity | reflexivity | exact H] ].
Qed.

Lemma quote_plus_encoded (s : string) : query_encoded s (Urllib.quote_plus s).
Proof.
  induction s as [|c s IH]; [constructor|].
  cbn [Urllib.quote_plus]. by apply quote_byte_encoded.
Qed.

Lemma query_encoded_functional (s t1 : string) :
  query_encoded s t1 -> forall t2, query_encoded s t2 -> t1 = t2.
Proof.
  induction 1 as [|c s t Hc _ IH|s t _ IH|c high low s t Hc Hsp Hh Hl _ IH];
    intros t2 H2; inversion H2; subst; try congruence.
  - f_equal. by apply IH.
  - discriminate Hc.
  - match goal with H : unreserved " " = true |- _ => discriminate H end.
  - f_equal. by apply IH.
  - repeat f_equal; [congruence | congruence | by apply IH].
Qed.

Section Properties.

Context {json : Type}.
Variable json_loads : string -> Result json.

(** ** The protocol client *)

Lemma open_tab_path (url : string) :
  "/json/new?" +:+ Urllib.urlencode [("url", url)] = "/json/new?url=" +:+ Urllib.quote_plus url.
Proof. reflexivity. Qed.

(** Every operation is one request to its URL, followed by the decoding of
    the body when the request returns one. *)
Lemma run_op_eq (self : BrowserController) (op : Operation) (w : World) :
  run_op json_loads self op w =
  let url := base_url self +:+ op_path op in
  match _http_client self w url with
  | (dt, inr body) => (json_loads body, requested url dt w)
  | (dt, inl e) => (inl e, requested url dt w)
  end.
Proof.
  destruct op; cbn [run_op op_path];
    unfold list_tabs, open_tab, close_tab, activate_tab, bind,
           _request, http_request, decode, requested;
    rewrite ?open_tab_path;
    destruct (_http_client self w _) as [dt [e|body]]; reflexivity.
Qed.

(** ** The action dispatcher *)

Lemma malformed_no_op (action : Action) :
  malformed action = true -> action_op action = None.
Proof. unfold action_op. by intros ->. Qed.

(** Dispatch is the operation of the action when it has one, and the
    rejection otherwise. *)
Lemma execute_action_eq (self : BrowserController) (action : Action) :
  execute_action json_loads self action =
  match action_op action with
  | Some op => run_op json_loads self op
  | None => raise (Exn ValueError (rejection action) None)
  end.
Proof.
  unfold execute_action, action_op, malformed, rejection, required_field.
  destruct (action !! "type") as [tag|] eqn:Htag; [|reflexivity].
  repeat case_decide; simplify_eq; try done.
  - destruct (action !! "url") as [[|c u]|]; reflexivity.
  - destruct (action !! "target_id") as [[|c u]|]; reflexivity.
  - destruct (action !! "target_id") as [[|c u]|]; reflexivity.
Qed.

(** C2. An action whose tag is unsupported, or whose tag is [open_url],
    [activate] or [close] while the field it requires ([url], [target_id])
    is absent or empty, is rejected with a [ValueError] before anything is
    requested: the world, and with it the trace of requests, is the one
    the call started in. The text of the error names the field at fault:
    the missing required field, or [type] (followed by the offending tag)
    when the tag is unsupported. *)
Theorem malformed_action_rejected (self : BrowserController) (action : Action) (w : World) :
  malformed action = true ->
  execute_action json_loads self action w
    = (inl (Exn ValueError (rejection action) None), w)
  /\ contains (offending_field action) (rejection action) = true
  /\ (forall tag f, action !! "type" = Some tag -> required_field tag = Some f ->
        falsy (action !! f) = true
        /\ rejection action = tag +:+ " action requires a '" +:+ f +:+ "'").
Proof.
  intros Hm. split; [|split].
  - rewrite execute_action_eq, (malformed_no_op _ Hm). reflexivity.
  - unfold offending_field, rejection.
    destruct (action !! "type") as [tag|]; [|reflexivity].
    unfold required_field. repeat case_decide; simplify_eq; reflexivity.
  - intros tag f Htag Hf. unfold malformed, rejection in *.
    rewrite Htag, Hf in *. done.
Qed.

(** What a dispatch does to the world: it appends the requests of the
    action to the trace and touches no process. *)
Lemma execute_action_world (self : BrowserController) (action : Action) (w : World)
      (r : Result json) (w' : World) :
  execute_action json_loads self action w = (r, w') ->
  trace w' = trace w ++ action_requests self action
  /\ processes w' = processes w
  /\ clock w <= clock w'.
Proof.
  rewrite execute_action_eq. unfold action_requests.
  destruct (action_op action) as [op|].
  - rewrite run_op_eq. cbv zeta.
    destruct (_http_client self w _) as [dt [e|body]];
      intros [= <- <-]; cbn; (split; [done|split; [done|lia]]).
  - intros [= <- <-]. rewrite app_nil_r. split; [done|split; [done|lia]].
Qed.

Lemma dispatched_world (self : BrowserController) (w : World) (actions : list Action)
      (results : list json) (w' : World) :
  dispatched json_loads self w actions results w' ->
  length results = length actions
  /\ trace w' = trace w ++ concat (map (action_requests self) actions)
  /\ processes w' = processes w.
Proof.
  induction 1 as [w|w action r w1 rest results w' Hex _ (IHl & IHt & IHp)].
  - cbn. by rewrite app_nil_r.
  - apply execute_action_world in Hex as (Ht & Hp & _).
    cbn. rewrite IHl, IHt, Ht, IHp, Hp, <- app_assoc. done.
Qed.

Lemma dispatched_app (self : BrowserController) (w w1 w' : World)
      (pre post : list Action) (rs1 rs2 : list json) :
  dispatched json_loads self w pre rs1 w1 ->
  dispatched json_loads self w1 post rs2 w' ->
  dispatched json_loads self w (pre ++ post) (rs1 ++ rs2) w'.
Proof.
  induction 1; intros H2; cbn; [done|]. econstructor; eauto.
Qed.

(** The loop of [perform_actions], started with [results] already
    collected. *)
Lemma perform_loop_spec (self : BrowserController) (actions : list Action) :
  forall (results : list json) (w : World) (res : Result (list json)) (w' : World),
    perform_loop json_loads self actions results w = (res, w') ->
    match res with
    | inr all =>
        exists rs, all = results ++ rs /\ dispatched json_loads self w actions rs w'
    | inl e =>
        exists pre action post rs w1,
          actions = pre ++ action :: post
          /\ dispatched json_loads self w pre rs w1
          /\ execute_action json_loads self action w1 = (inl e, w')
    end.
Proof.
  induction actions as [|action rest IH]; intros results w res w'.
  - intros [= <- <-]. exists []. rewrite app_nil_r. split; [done|constructor].
  - cbn [perform_loop]. unfold bind at 1.
    destruct (execute_action json_loads self action w) as [[e|r] w1] eqn:Hex.
    + intros [= <- <-]. exists [], action, rest, [], w.
      split; [done|]. split; [constructor|done].
    + intros Hloop. apply IH in Hloop. destruct res as [e|all].
      * destruct Hloop as (pre & a & post & rs & w2 & -> & Hd & Hfail).
        exists (action :: pre), a, post, (r :: rs), w2.
        split; [done|]. split; [|done]. econstructor; eauto.
      * destruct Hloop as (rs & -> & Hd). exists (r :: rs).
        rewrite <- app_assoc. split; [done|]. econstructor; eauto.
Qed.

(** C3. [perform_actions] dispatches the actions one at a time in list
    order, each in the world its predecessor left. When all succeed, the
    results come back in that order, one per action, and the requests made
    are those of the actions in that order. When the dispatch of one
    action fails, the call fails with that error in the world that this
    failed dispatch left: everything requested for the actions before it
    stays as it was, and nothing is requested for the actions after it. *)
Theorem perform_actions_in_order (self : BrowserController) (actions : list Action)
        (w : World) (res : Result (list json)) (w' : World) :
  perform_actions json_loads self actions w = (res, w') ->
  match res with
  | inr results =>
      dispatched json_loads self w actions results w'
      /\ length results = length actions
      /\ trace w' = trace w ++ concat (map (action_requests self) actions)
  | inl e =>
      exists pre action post results w1,
        actions = pre ++ action :: post
        /\ dispatched json_loads self w pre results w1
        /\ execute_action json_loads self action w1 = (inl e, w')
        /\ trace w' = trace w ++ concat (map (action_requests self) (pre ++ [action]))
  end.
Proof.
  intros Hrun. apply perform_loop_spec in Hrun. destruct res as [e|results].
  - destruct Hrun as (pre & action & post & rs & w1 & -> & Hd & Hfail).
    exists pre, action, post, rs, w1. repeat split; try done.
    apply dispatched_world in Hd as (_ & Ht & _).
    apply execute_action_world in Hfail as (Ht' & _).
    rewrite Ht', Ht, map_app, concat_app. cbn. by rewrite app_nil_r, app_assoc.
  - destruct Hrun as (rs & -> & Hd). cbn.
    by destruct (dispatched_world _ _ _ _ _ Hd) as (Hl & Ht & _).
Qed.

(** C5. Dispatching an [open_url] action with a non-empty [url] issues
    exactly one request, to the path [/json/new?url=] followed by the
    query encoding of [url]. That encoding is the one of the standard: each
    unreserved character of [url] stands for itself, each space is a [+],
    and every other byte is [%] and its two upper-case hexadecimal digits;
    no other string encodes [url] so. Decoding it gives [url] back, and
    [https://example.com] is encoded as [https%3A%2F%2Fexample.com]. *)
Theorem open_url_request_path (self : BrowserController) (action : Action)
        (url : string) (w : World) :
  action !! "type" = Some "open_url" ->
  action !! "url" = Some url ->
  url <> "" ->
  (exists r w',
      execute_action json_loads self action w = (r, w')
      /\ trace w' = trace w ++
           [EvRequest (base_url self +:+ "/json/new?url=" +:+ Urllib.quote_plus url)])
  /\ query_encoded url (Urllib.quote_plus url)
  /\ (forall q, query_encoded url q -> q = Urllib.quote_plus url)
  /\ Urllib.unquote_plus (Urllib.quote_plus url) = url
  /\ Urllib.quote_plus "https://example.com" = "https%3A%2F%2Fexample.com".
Proof.
  intros Htype Hurl Hne.
  split; [|split; [apply quote_plus_encoded|split; [|split]]].
  - assert (Hop : action_op action = Some (OpenTab url)).
    { unfold action_op, malformed. rewrite Htype.
      change (required_field "open_url") with (Some "url"). cbv beta iota.
      rewrite !Hurl. destruct url; [done | reflexivity]. }
    rewrite execute_action_eq, Hop, run_op_eq. cbn [op_path].
    destruct (_http_client self w _) as [dt [e|body]]; eauto.
  - intros q Hq. exact (query_encoded_functional url q Hq _ (quote_plus_encoded url)).
  - apply unquote_quote_plus.
  - reflexivity.
Qed.

(** ** The readiness poller *)

Lemma list_tabs_world (self : BrowserController) (w : World) (r : Result json) (w1 : World) :
  list_tabs json_loads self w = (r, w1) ->
  trace w1 = trace w ++ [EvRequest (base_url self +:+ "/json/list")]
  /\ processes w1 = processes w
  /\ clock w <= clock w1.
Proof.
  intros H. change (run_op json_loads self ListTabs w = (r, w1)) in H.
  rewrite run_op_eq in H. cbv zeta in H.
  destruct (_http_client self w _) as [dt [e|body]];
    injection H as <- <-; cbn; (split; [done|split; [done|lia]]).
Qed.

Lemma failed_attempts_world (self : BrowserController) (deadline : Z) (w : World)
      (errs : list exn) (w' : World) :
  failed_attempts json_loads self deadline w errs w' ->
  trace w' = trace w ++ polling_events self (length errs)
  /\ processes w' = processes w
  /\ clock w + 500 * Z.of_nat (length errs) <= clock w'.
Proof.
  induction 1 as [w|w exc w1 errs w' Hlt Hfail _ (IHt & IHp & IHc)].
  - cbn. rewrite app_nil_r. split; [done|split; [done|lia]].
  - apply list_tabs_world in Hfail as (Ht & Hp & Hc).
    cbn in IHt, IHp, IHc. cbn [length polling_events].
    rewrite IHt, Ht, IHp, Hp, <- !app_assoc. cbn.
    split; [done|split; [done|lia]].
Qed.

(** More fuel does not change a result. *)
Lemma wait_loop_more_fuel (self : BrowserController) (deadline : Z) (fuel : nat) :
  forall (fuel' : nat) (last_error : option exn) (w : World) (x : Result unit * World),
    (fuel <= fuel')%nat ->
    wait_loop json_loads fuel self deadline last_error w = Some x ->
    wait_loop json_loads fuel' self deadline last_error w = Some x.
Proof.
  induction fuel as [|fuel IH]; intros fuel' last_error w x Hle; [done|].
  destruct fuel' as [|fuel']; [lia|]. cbn [wait_loop].
  destruct (clock w <? deadline); [|done].
  destruct (list_tabs json_loads self w) as [[exc|v] w1]; [|done].
  cbn. apply IH. lia.
Qed.

(** The loop with enough fuel: a run of failed attempts, ended by the
    first success or by the deadline. *)
Lemma wait_loop_spec (self : BrowserController) (deadline : Z) (fuel : nat) :
  forall (last_error : option exn) (w : World),
    (0 < fuel)%nat ->
    deadline - clock w <= 500 * (Z.of_nat fuel - 1) ->
    exists errs wk,
      failed_attempts json_loads self deadline w errs wk
      /\ ((exists v w',
             clock wk < deadline
             /\ list_tabs json_loads self wk = (inr v, w')
             /\ wait_loop json_loads fuel self deadline last_error w = Some (inr tt, w'))
          \/ (deadline <= clock wk
              /\ wait_loop json_loads fuel self deadline last_error w
                 = Some (inl (timeout_error (last_seen last_error errs)), wk))).
Proof.
  induction fuel as [|fuel IH]; intros last_error w Hpos Hbound; [lia|].
  cbn [wait_loop]. destruct (Z.ltb_spec (clock w) deadline) as [Hlt|Hge].
  - destruct (list_tabs json_loads self w) as [[exc|v] w1] eqn:Htabs.
    + pose proof (list_tabs_world _ _ _ _ Htabs) as (_ & _ & Hc).
      cbn [sleep].
      destruct (IH (Some exc) (advance 500 (emit (EvSleep 500) w1)))
        as (errs & wk & Hfa & Hres); [lia | cbn; lia |].
      exists (exc :: errs), wk. split; [econstructor; eauto|].
      destruct Hres as [(v & w' & Hlt' & Hok & Hrun)|(Hge & Hrun)].
      * left. exists v, w'. done.
      * right. split; [done|]. rewrite Hrun. unfold last_seen.
        destruct errs as [|e errs]; [done|].
        change (last (exc :: e :: errs)) with (last (e :: errs)).
        destruct (last (e :: errs)) eqn:Hlast; [done|].
        by apply last_None in Hlast.
    + exists [], w. split; [constructor|]. left. exists v, w1. done.
  - exists [], w. split; [constructor|]. right. done.
Qed.

Lemma enough_fuel_bound (self : BrowserController) :
  startup_timeout self <= 500 * (Z.of_nat (enough_fuel self) - 1).
Proof.
  unfold enough_fuel.
  pose proof (Z.mod_pos_bound (startup_timeout self) 500 ltac:(lia)).
  pose proof (Z.div_mod (startup_timeout self) 500 ltac:(lia)).
  destruct (Z.le_gt_cases 0 (startup_timeout self / 500 + 1)); lia.
Qed.


(** C1. [_wait_until_ready] always ends: it makes a run of [listTabs]
    attempts that fail, each started before the deadline and each followed
    by a sleep of exactly 500 ms, and then either an attempt started before
    the deadline succeeds, and the call returns in the world that this
    attempt left (nothing more is requested), or the deadline has passed,
    and the call fails with [TimeoutError] whose cause is the error of the
    last failed attempt ([None] when no attempt was made). *)
Theorem wait_until_ready_spec (self : BrowserController) (w : World) :
  let deadline := clock w + startup_timeout self in
  exists (fuel0 : nat) (errs : list exn) (wk : World),
    failed_attempts json_loads self deadline w errs wk
    /\ trace wk = trace w ++ polling_events self (length errs)
    /\ ((exists v w',
           clock wk < deadline
           /\ list_tabs json_loads self wk = (inr v, w')
           /\ trace w' = trace wk ++ [EvRequest (base_url self +:+ "/json/list")]
           /\ forall fuel, (fuel0 <= fuel)%nat ->
                _wait_until_ready json_loads fuel self w = Some (inr tt, w'))
        \/ (deadline <= clock wk
            /\ forall fuel, (fuel0 <= fuel)%nat ->
                 _wait_until_ready json_loads fuel self w
                 = Some (inl (timeout_error (last errs)), wk))).
Proof.
  intros deadline.
  destruct (wait_loop_spec self deadline (enough_fuel self) None w)
    as (errs & wk & Hfa & Hres).
  { unfold enough_fuel. lia. }
  { pose proof (enough_fuel_bound self). subst deadline. lia. }
  exists (enough_fuel self), errs, wk. split; [done|].
  split; [by apply failed_attempts_world in Hfa as (? & _)|].
  destruct Hres as [(v & w' & Hlt & Hok & Hrun)|(Hge & Hrun)].
  - left. exists v, w'. split; [done|]. split; [done|].
    split; [by apply list_tabs_world in Hok as (? & _)|].
    intros fuel Hle. unfold _wait_until_ready.
    by apply (wait_loop_more_fuel self deadline (enough_fuel self)).
  - right. split; [done|]. intros fuel Hle. unfold _wait_until_ready.
    apply (wait_loop_more_fuel self deadline (enough_fuel self)); [done|].
    rewrite Hrun. unfold last_seen. by destruct (last errs).
Qed.

(** ** Process lifecycle *)

(** The poll only requests and sleeps, leaves the processes alone, and
    fails with [TimeoutError] only. *)
Lemma wait_loop_world (self : BrowserController) (deadline : Z) (fuel : nat) :
  forall (last_error : option exn) (w : World) (r : Result unit) (w' : World),
    wait_loop json_loads fuel self deadline last_error w = Some (r, w') ->
    processes w' = processes w
    /\ (exists evs, trace w' = trace w ++ evs /\ Forall polling_event evs)
    /\ (r = inr tt \/ exists last, r = inl (timeout_error last)).
Proof.
  induction fuel as [|fuel IH]; intros last_error w r w'; [done|].
  cbn [wait_loop]. destruct (clock w <? deadline).
  - destruct (list_tabs json_loads self w) as [[exc|v] w1] eqn:Htabs;
      apply list_tabs_world in Htabs as (Ht & Hp & _).
    + cbn [sleep]. intros Hrun. apply IH in Hrun as (Hp' & (evs & Ht' & Hall) & Hr).
      cbn in Hp', Ht'. split; [congruence|]. split; [|done].
      exists (EvRequest (base_url self +:+ "/json/list") :: EvSleep 500 :: evs).
      rewrite Ht', Ht, <- !app_assoc. split; [done|].
      repeat constructor. done.
    + intros [= <- <-]. split; [done|]. split; [|by left].
      exists [EvRequest (base_url self +:+ "/json/list")].
      split; [done|]. repeat constructor.
  - intros [= <- <-]. split; [done|]. split; [|right; by eexists].
    exists []. by rewrite app_nil_r.
Qed.




(** C7. When the controller holds a handle to a running process,
    [launch_browser] returns at once: nothing is spawned, nothing is
    requested, and neither the controller nor the world changes. *)
Theorem launch_when_running_is_noop (self : BrowserController) (w : World)
        (fuel : nat) (headless : bool) (user_data_dir : option string)
        (additional_args : option (list string)) :
  is_browser_running self w = true ->
  launch_browser json_loads fuel self headless user_data_dir additional_args w
  = Some (inr tt, self, w).
Proof. intros Hrun. unfold launch_browser. by rewrite Hrun. Qed.

(** C10. When [launch_browser] spawns a process and then fails, the error
    is the [TimeoutError] of the readiness poll, and the controller keeps
    the handle of the process it spawned: in every later world in which
    that process is alive, [is_browser_running] is true and another
    [launch_browser] changes nothing, spawning and polling nothing. *)
Theorem failed_launch_keeps_handle (self : BrowserController) (headless : bool)
        (user_data_dir : option string) (additional_args : option (list string))
        (w : World) (fuel : nat) (p : Popen) (e : exn)
        (self' : BrowserController) (w' : World) :
  is_browser_running self w = false ->
  _process_factory self w (launch_args self headless user_data_dir additional_args) = inr p ->
  launch_browser json_loads fuel self headless user_data_dir additional_args w
    = Some (inl e, self', w') ->
  let pid := length (processes w) in
  (exists last, e = timeout_error last)
  /\ self' = set_process self (Some pid)
  /\ processes w' = processes w ++ [p]
  /\ forall w'',
      ProcessHandle.is_running pid w'' = true ->
      is_browser_running self' w'' = true
      /\ forall fuel' headless' user_data_dir' additional_args',
          launch_browser json_loads fuel' self' headless' user_data_dir' additional_args' w''
          = Some (inr tt, self', w'').
Proof.
  intros Hidle Hspawn. unfold launch_browser. rewrite Hidle. unfold spawn.
  rewrite Hspawn.
  destruct (_wait_until_ready _ _ _ _) as [[r1 w2]|] eqn:Hwait; [|done].
  intros [= -> <- <-]. unfold _wait_until_ready in Hwait.
  apply wait_loop_world in Hwait as (Hp & _ & [?|[last Hlast]]); [done|].
  injection Hlast as ->. cbn in Hp.
  split; [by eexists|]. split; [done|]. split; [done|].
  intros w'' Halive.
  assert (Hrun : is_browser_running
                   (set_process self (Some (length (processes w)))) w'' = true) by done.
  split; [done|]. intros. unfold launch_browser. by rewrite Hrun.
Qed.

(** The calls that [terminate_browser] makes on a held handle. *)
Lemma terminate_browser_held (self : BrowserController) (pid : nat) (w : World) :
  _process self = Some pid ->
  exists w1,
    terminate_browser self w = (inr tt, set_process self None, w1)
    /\ trace w1 = trace w ++ (if ProcessHandle.is_running pid w
                              then [EvSignal pid; EvWait pid 5000]
                              else [EvWait pid 5000])
    /\ (ProcessHandle.is_running pid w = false -> processes w1 = processes w)
    /\ clock w <= clock w1 <= clock w + 5000.
Proof.
  intros Hheld. unfold terminate_browser. rewrite Hheld.
  unfold bind, ProcessHandle.terminate, ProcessHandle.wait, try_except, bind,
         ProcessHandle.popen_terminate, ProcessHandle.popen_wait, ret.
  destruct (ProcessHandle.is_running pid w) eqn:Hrun; cbn.
  - destruct (ProcessHandle.lookup _ pid) as [q|]; [destruct (exit_time q) as [t|]|];
      [destruct (Z.leb_spec t (clock w + 5000))|..];
      eexists; (split; [reflexivity|]); cbn; rewrite <- ?app_assoc;
      (split; [done|split; [done|lia]]).
  - destruct (ProcessHandle.lookup _ pid) as [q|]; [destruct (exit_time q) as [t|]|];
      [destruct (Z.leb_spec t (clock w + 5000))|..];
      eexists; (split; [reflexivity|]); cbn; (split; [done|split; [done|lia]]).
Qed.

(** C8. [terminate_browser] never raises and leaves the controller without
    a handle. Without a handle it does nothing at all; so a second call
    right after a first does nothing. With a handle it waits at most five
    seconds, and it sends the signal only when the process is still
    running: for a process that has already exited no signal is sent and
    no process changes. *)
Theorem terminate_idempotent (self : BrowserController) (w : World) :
  exists w1,
    terminate_browser self w = (inr tt, set_process self None, w1)
    /\ terminate_browser (set_process self None) w1 = (inr tt, set_process self None, w1)
    /\ (_process self = None -> set_process self None = self /\ w1 = w)
    /\ (forall pid, _process self = Some pid ->
          ProcessHandle.is_running pid w = false ->
          trace w1 = trace w ++ [EvWait pid 5000] /\ processes w1 = processes w)
    /\ (forall pid, _process self = Some pid ->
          ProcessHandle.is_running pid w = true ->
          trace w1 = trace w ++ [EvSignal pid; EvWait pid 5000]).
Proof.
  destruct (_process self) as [pid|] eqn:Hheld.
  - destruct (terminate_browser_held self pid w Hheld) as (w1 & Hrun & Ht & Hp & _).
    exists w1. split; [done|]. split; [done|]. split; [done|].
    split; intros pid' [= <-] Halive; rewrite Halive in Ht; auto.
  - assert (Hself : set_process self None = self).
    { destruct self; cbn in *; by subst. }
    exists w. rewrite Hself. unfold terminate_browser. rewrite Hheld. done.
Qed.

(** ** Failures of the protocol client *)

Lemma contains_url_in_message (url : string) (exc : exn) :
  contains url ("DevTools endpoint request failed for " +:+ url +:+ ": " +:+ str exc) = true.
Proof.
  apply contains_app_l, contains_app_r, contains_refl.
Qed.

(** The two kinds of failure of a protocol operation made through the
    default HTTP client. Every operation makes one request. When the transport fails, the operation
    fails with an [HTTPError] whose text holds the URL and whose cause is
    the transport's error. When the transport returns a body, the
    operation returns or raises exactly what the JSON decoder returns or
    raises for that body: a decoding error reaches the caller as it is,
    not wrapped in [HTTPError] and without the URL. No failure is
    swallowed. *)
Lemma protocol_failures_surface (urlopen : HTTPClient) (self : BrowserController)
        (op : Operation) (w : World) :
  _http_client self = DefaultHTTPClient_request urlopen ->
  let url := base_url self +:+ op_path op in
  match urlopen w url with
  | (dt, inl exc) =>
      exists e,
        run_op json_loads self op w = (inl e, requested url dt w)
        /\ carries_context url e
        /\ exn_cause e = Some exc
  | (dt, inr body) =>
      run_op json_loads self op w = (json_loads body, requested url dt w)
  end.
Proof.
  intros Hclient url. rewrite run_op_eq, Hclient. fold url.
  unfold DefaultHTTPClient_request.
  destruct (urlopen w url) as [dt [exc|body]]; [|done].
  eexists. split; [reflexivity|]. split; [|done].
  split; [done|]. split; [apply contains_url_in_message | by eexists].
Qed.

End Properties.

(** ** The native bridge *)

Module NativeBridgeProperties.

Import NativeBridge.

Lemma extend_args_eq (extra_args : list string) :
  forall args,
    extend_args args extra_args =
    if existsb unsafe extra_args
    then inl (Exn SecurityError "Arguments containing '--unsafe' are blocked" None)
    else inr (args ++ extra_args).
Proof.
  induction extra_args as [|arg rest IH]; intros args; cbn [extend_args existsb].
  - by rewrite app_nil_r.
  - destruct (unsafe arg); [done|].
    cbn [orb]. rewrite IH, <- app_assoc. done.
Qed.


End NativeBridgeProperties.

(** The test [test_open_tab_uses_remote_debugging_endpoint] of the
    repository, on the model. *)
Example open_tab_uses_remote_debugging_endpoint :
  open_tab Fake.json_loads Fake.controller "https://example.com" Fake.world0
  = (inr (Fake.json_object "id" "target-1"),
     mkWorld 0 [] [EvRequest "http://127.0.0.1:9333/json/new?url=https%3A%2F%2Fexample.com"]).
Proof. reflexivity. Qed.

Lemma malformed_action_rejected_witness :
  let action : Action := {[ "type" := "close" ]} in
  execute_action Fake.json_loads Fake.controller action Fake.world0
    = (inl (Exn ValueError "close action requires a 'target_id'" None), Fake.world0).
Proof.
  intros action.
  exact (proj1 (malformed_action_rejected Fake.json_loads Fake.controller action
                  Fake.world0 eq_refl)).
Defined.

Lemma open_url_request_path_witness :
  let action : Action := {[ "type" := "open_url"; "url" := "https://example.com" ]} in
  exists r w',
    execute_action Fake.json_loads Fake.controller action Fake.world0 = (r, w')
    /\ trace w' = [EvRequest "http://127.0.0.1:9333/json/new?url=https%3A%2F%2Fexample.com"].
Proof.
  intros action.
  exact (proj1 (open_url_request_path Fake.json_loads Fake.controller action
                  "https://example.com" Fake.world0 eq_refl eq_refl
                  ltac:(discriminate))).
Defined.

Lemma perform_actions_in_order_witness :
  dispatched Fake.json_loads Fake.controller Fake.world0 Fake.three_actions
    [Fake.json_object "id" "target-1"; Fake.json_object "status" "ok";
     Fake.json_object "status" "ok"]
    (mkWorld 0 []
       [EvRequest "http://127.0.0.1:9333/json/new?url=https%3A%2F%2Fexample.com";
        EvRequest "http://127.0.0.1:9333/json/activate/target-1";
        EvRequest "http://127.0.0.1:9333/json/close/target-1"]).
Proof.
  exact (proj1 (perform_actions_in_order Fake.json_loads Fake.controller Fake.three_actions
                  Fake.world0 (inr _) _ eq_refl)).
Defined.

(** A failure in the middle: the second action lacks its [target_id]. *)
Example perform_actions_stops_at_failure :
  perform_actions Fake.json_loads Fake.controller
    [ {[ "type" := "open_url"; "url" := "https://example.com" ]};
      {[ "type" := "activate" ]};
      {[ "type" := "close"; "target_id" := "target-1" ]} ] Fake.world0
  = (inl (Exn ValueError "activate action requires a 'target_id'" None),
     mkWorld 0 [] [EvRequest "http://127.0.0.1:9333/json/new?url=https%3A%2F%2Fexample.com"]).
Proof. reflexivity. Qed.

(** An endpoint that comes up at the third attempt: two failures, two sleeps
    of 500 ms, a third request, and the call returns. *)
Example wait_until_ready_slow_start :
  _wait_until_ready Fake.json_loads 40 (Fake.controller_with (Fake.slow_start 2) 15000)
                    Fake.world0
  = Some (inr tt,
          mkWorld 1200 []
            [EvRequest "http://127.0.0.1:9333/json/list"; EvSleep 500;
             EvRequest "http://127.0.0.1:9333/json/list"; EvSleep 500;
             EvRequest "http://127.0.0.1:9333/json/list"]).
Proof. reflexivity. Qed.

(** An endpoint that never comes up, with a deadline of one second. *)
Example wait_until_ready_times_out :
  _wait_until_ready Fake.json_loads 40 (Fake.controller_with Fake.refusing 1000) Fake.world0
  = Some (inl (timeout_error (Some Fake.connection_refused)),
          mkWorld 1200 []
            [EvRequest "http://127.0.0.1:9333/json/list"; EvSleep 500;
             EvRequest "http://127.0.0.1:9333/json/list"; EvSleep 500]).
Proof. reflexivity. Qed.

(** A deadline that has passed when the call starts: no attempt is made. *)
Example wait_until_ready_no_attempt :
  _wait_until_ready Fake.json_loads 40 (Fake.controller_with Fake.http_client 0) Fake.world0
  = Some (inl (timeout_error None), Fake.world0).
Proof. reflexivity. Qed.

(** The default client against an endpoint that refuses connections. *)
Lemma protocol_failures_surface_witness :
  exists e,
    list_tabs Fake.json_loads (default_controller Fake.refusing Fake.process_factory)
              Fake.world0
    = (inl e, requested "http://127.0.0.1:9222/json/list" 100 Fake.world0)
    /\ carries_context "http://127.0.0.1:9222/json/list" e
    /\ exn_cause e = Some Fake.connection_refused.
Proof.
  exact (protocol_failures_surface Fake.json_loads Fake.refusing
           (default_controller Fake.refusing Fake.process_factory)
           ListTabs Fake.world0 eq_refl).
Defined.

(** C4. The code breaks the claim at this input. The default client talks
    to an endpoint that answers [/json/list] with an HTML page: [list_tabs]
    raises the decoder's [JSONDecodeError], which is no [HTTPError], has no
    cause and does not hold the URL. On the sibling path, the same call
    against an endpoint that refuses the connection, the error is an
    [HTTPError] that holds the URL and the cause. *)
Theorem invalid_json_escapes_unwrapped :
  list_tabs Fake.json_loads (default_controller Fake.html_page Fake.process_factory)
            Fake.world0
  = (inl (Exn JSONDecodeError "Expecting value: line 1 column 1 (char 0)" None),
     mkWorld 0 [] [EvRequest "http://127.0.0.1:9222/json/list"])
  /\ ~ carries_context "http://127.0.0.1:9222/json/list"
       (Exn JSONDecodeError "Expecting value: line 1 column 1 (char 0)" None)
  /\ contains "http://127.0.0.1:9222/json/list"
       "Expecting value: line 1 column 1 (char 0)" = false
  /\ list_tabs Fake.json_loads (default_controller Fake.refusing Fake.process_factory)
               Fake.world0
     = (inl (Exn HTTPError
                 ("DevTools endpoint request failed for http://127.0.0.1:9222/json/list: "
                  +:+ str Fake.connection_refused)
                 (Some Fake.connection_refused)),
        mkWorld 100 [] [EvRequest "http://127.0.0.1:9222/json/list"]).
Proof.
  split; [reflexivity|]. split; [|split; reflexivity].
  intros (Hcls & _). discriminate Hcls.
Qed.


Example run_exit_status_zero :
  NativeBridge.run (Fake.exits_with 0) Fake.bridge "check" (Some ["--verbose"]) []
  = (inr (NativeBridge.mkCompleted ["/usr/bin/false"; "--verbose"] 0 "" ""),
     [["/usr/bin/false"; "--verbose"]]).
Proof. reflexivity. Qed.

Example run_blocks_unsafe_argument :
  NativeBridge.run (Fake.exits_with 0) Fake.bridge "check" (Some ["-v"; "--unsafe-perm"]) []
  = (inl (Exn SecurityError "Arguments containing '--unsafe' are blocked" None), []).
Proof. reflexivity. Qed.

Example run_blocks_unregistered :
  NativeBridge.run (Fake.exits_with 0) Fake.bridge "rm" None []
  = (inl (Exn SecurityError "Command 'rm' is not allowlisted" None), []).
Proof. reflexivity. Qed.


Lemma launch_when_running_is_noop_witness :
  launch_browser Fake.json_loads 0 Fake.running_controller true None None Fake.running_world
  = Some (inr tt, Fake.running_controller, Fake.running_world).
Proof.
  exact (launch_when_running_is_noop Fake.json_loads Fake.running_controller
           Fake.running_world 0 true None None eq_refl).
Defined.

(** The test [test_launch_browser_invokes_process_factory], with the poll in
    place: the endpoint of [FakeHTTPClient] answers the first attempt. *)
Example launch_browser_invokes_process_factory :
  launch_browser Fake.json_loads 40 Fake.controller true None None Fake.world0
  = Some (inr tt, Fake.running_controller,
          mkWorld 0 [Fake.process]
            [EvSpawn ["/usr/bin/chrome"; "--remote-debugging-port=9333";
                      "--remote-allow-origins=*"; "--headless=new"];
             EvRequest "http://127.0.0.1:9333/json/list"]).
Proof. reflexivity. Qed.

Lemma failed_launch_keeps_handle_witness :
  exists e self' w',
    launch_browser Fake.json_loads 40 (Fake.controller_with Fake.refusing 1000)
                   true None None Fake.world0
    = Some (inl e, self', w')
    /\ exn_cls e = TimeoutError
    /\ _process self' = Some 0%nat
    /\ is_browser_running self' w' = true
    /\ launch_browser Fake.json_loads 40 self' true None None w' = Some (inr tt, self', w').
Proof.
  eexists _, _, _. split; [reflexivity|].
  destruct (failed_launch_keeps_handle Fake.json_loads
              (Fake.controller_with Fake.refusing 1000) true None None Fake.world0
              40 Fake.process _ _ _ eq_refl eq_refl eq_refl)
    as (_ & _ & _ & Hkept).
  match goal with
  | |- _ /\ _ /\ is_browser_running _ ?w = true /\ _ =>
      destruct (Hkept w eq_refl) as [Hrun Hnoop]
  end.
  split; [reflexivity|]. split; [reflexivity|]. split; [exact Hrun|].
  exact (Hnoop 40%nat true None None).
Defined.

(** Terminating twice, and terminating a controller that was never launched. *)
Example terminate_twice :
  terminate_browser Fake.running_controller Fake.running_world
  = (inr tt, Fake.controller,
     mkWorld 0 [mkPopen (Some 0) (Some 0) 0]
             (trace Fake.running_world ++ [EvSignal 0; EvWait 0 5000]))
  /\ terminate_browser Fake.controller Fake.world0 = (inr tt, Fake.controller, Fake.world0).
Proof. split; reflexivity. Qed.

(** * Further properties of the controller *)

Section ControllerProperties.

Context {json : Type}.
Variable json_loads : string -> Result json.

(** ** Dispatch *)

Lemma list_tabs_run (self : BrowserController) (w : World) :
  let url := base_url self +:+ "/json/list" in
  list_tabs json_loads self w
  = (match snd (_http_client self w url) with
     | inr body => json_loads body
     | inl e => inl e
     end,
     requested url (fst (_http_client self w url)) w).
Proof.
  intros url. change (list_tabs json_loads self w) with (run_op json_loads self ListTabs w).
  rewrite run_op_eq. cbn [op_path]. fold url.
  by destruct (_http_client self w url) as [dt [e|body]].
Qed.

(** X1. An [activate] or [close] action with a non-empty [target_id] makes
    exactly one request, to [/json/activate/<id>] or [/json/close/<id>]
    with the id taken as it is (it is not encoded), and returns what the
    decoder makes of the body, or raises what the client raised. *)
Theorem target_action_request (self : BrowserController) (action : Action)
        (tag id : string) (w : World) :
  tag = "activate" \/ tag = "close" ->
  action !! "type" = Some tag ->
  action !! "target_id" = Some id ->
  id <> "" ->
  let url := base_url self +:+ "/json/" +:+ tag +:+ "/" +:+ id in
  execute_action json_loads self action w
  = (match snd (_http_client self w url) with
     | inr body => json_loads body
     | inl e => inl e
     end,
     mkWorld (clock w + Z.of_N (fst (_http_client self w url)))
             (processes w) (trace w ++ [EvRequest url])).
Proof.
  intros Htag Htype Hid Hne url.
  assert (Hop : action_op action
                = Some (if decide (tag = "activate") then ActivateTab id else CloseTab id)).
  { unfold action_op, malformed. rewrite Htype.
    destruct Htag as [-> | ->];
      [change (required_field "activate") with (Some "target_id")
      |change (required_field "close") with (Some "target_id")];
      cbv beta iota; rewrite !Hid; destruct id; done. }
  rewrite execute_action_eq, Hop, run_op_eq.
  assert (Hurl : base_url self +:+
                 op_path (if decide (tag = "activate") then ActivateTab id else CloseTab id)
                 = url).
  { subst url. by destruct Htag as [-> | ->]. }
  rewrite Hurl. cbv zeta. by destruct (_http_client self w url) as [dt [e|body]].
Qed.

(** X2. Dispatch reads the tag and the field that the tag requires, and
    nothing else: two actions that agree on these are dispatched alike,
    whatever other fields they hold. *)
Theorem execute_action_relevant_fields (self : BrowserController) (a b : Action) :
  a !! "type" = b !! "type" ->
  (forall tag f, a !! "type" = Some tag -> required_field tag = Some f -> a !! f = b !! f) ->
  execute_action json_loads self a = execute_action json_loads self b.
Proof.
  intros Htype Hfield. unfold execute_action. rewrite <- Htype.
  destruct (a !! "type") as [tag|] eqn:Htag; [|done].
  repeat case_decide; simplify_eq; try done.
  - by rewrite <- (Hfield "open_url" "url").
  - by rewrite <- (Hfield "activate" "target_id").
  - by rewrite <- (Hfield "close" "target_id").
Qed.

(** ** Batches *)

Lemma perform_loop_acc (self : BrowserController) (actions : list Action) :
  forall (results : list json) (w : World),
    perform_loop json_loads self actions results w
    = match perform_loop json_loads self actions [] w with
      | (inr rs, w') => (inr (results ++ rs), w')
      | (inl e, w') => (inl e, w')
      end.
Proof.
  induction actions as [|action rest IH]; intros results w.
  - cbn. by rewrite app_nil_r.
  - cbn [perform_loop]. unfold bind.
    destruct (execute_action json_loads self action w) as [[e|r] w1]; [done|].
    rewrite (IH (results ++ [r])), (IH ([] ++ [r])).
    destruct (perform_loop json_loads self rest [] w1) as [[e|rs] w2]; [done|].
    by rewrite <- app_assoc.
Qed.

Lemma perform_loop_app (self : BrowserController) (xs : list Action) :
  forall (ys : list Action) (results : list json) (w : World),
    perform_loop json_loads self (xs ++ ys) results w
    = match perform_loop json_loads self xs results w with
      | (inr rs1, w1) => perform_loop json_loads self ys rs1 w1
      | (inl e, w1) => (inl e, w1)
      end.
Proof.
  induction xs as [|action rest IH]; intros ys results w; [done|].
  cbn [app perform_loop]. unfold bind.
  destruct (execute_action json_loads self action w) as [[e|r] w1]; [done|].
  apply IH.
Qed.

(** X3. A batch can be split anywhere: performing [xs ++ ys] is performing
    [xs] and then, if that succeeded, [ys] in the world that [xs] left, the
    results being those of [xs] followed by those of [ys]; a failure in [xs]
    ends the batch before anything of [ys] is tried. The empty batch does
    nothing. *)
Theorem perform_actions_app (self : BrowserController) (xs ys : list Action) (w : World) :
  perform_actions json_loads self (xs ++ ys) w
  = match perform_actions json_loads self xs w with
    | (inr rs1, w1) =>
        match perform_actions json_loads self ys w1 with
        | (inr rs2, w2) => (inr (rs1 ++ rs2), w2)
        | (inl e, w2) => (inl e, w2)
        end
    | (inl e, w1) => (inl e, w1)
    end
  /\ perform_actions json_loads self [] w = (inr [], w).
Proof.
  split; [|done]. unfold perform_actions. rewrite perform_loop_app.
  destruct (perform_loop json_loads self xs [] w) as [[e|rs1] w1]; [done|].
  apply perform_loop_acc.
Qed.

End ControllerProperties.

(** ** Query encoding, continued *)

Lemma list_ascii_app (s t : string) :
  list_ascii_of_string (s +:+ t) = list_ascii_of_string s ++ list_ascii_of_string t.
Proof.
  induction s as [|c s IH]; [done|].
  change (String c s +:+ t) with (String c (s +:+ t)). cbn. by rewrite IH.
Qed.

Lemma quote_byte_chars (c : ascii) :
  forallb (fun d => Urllib.always_safe d || Ascii.eqb d "+" || Ascii.eqb d "%")
          (list_ascii_of_string (Urllib.quote_byte c)) = true.
Proof. destruct c as [[] [] [] [] [] [] [] []]; reflexivity. Qed.

Lemma quote_plus_chars (s : string) :
  forallb (fun d => Urllib.always_safe d || Ascii.eqb d "+" || Ascii.eqb d "%")
          (list_ascii_of_string (Urllib.quote_plus s)) = true.
Proof.
  induction s as [|c s IH]; [done|].
  cbn [Urllib.quote_plus]. rewrite list_ascii_app, forallb_app, quote_byte_chars. done.
Qed.

(** X4. The encoded query value that [open_tab] puts after [url=] consists
    of ASCII letters, digits and [_.-~+%] only; in particular it holds no
    [&], [=], [#], [?], [/] and no space, so a URL cannot add parameters to
    the request or end its query. *)
Theorem quote_plus_alphabet (s : string) (d : ascii) :
  In d (list_ascii_of_string (Urllib.quote_plus s)) ->
  (Urllib.always_safe d = true \/ d = "+"%char \/ d = "%"%char)
  /\ ~ In d ["&"; "="; "#"; "?"; "/"; " "]%char.
Proof.
  intros Hin. pose proof (quote_plus_chars s) as Hall.
  rewrite forallb_forall in Hall. specialize (Hall d Hin).
  split.
  - apply orb_true_iff in Hall as [Hall|Hpct]; [apply orb_true_iff in Hall as [Hs|Hplus]|].
    + by left.
    + right; left. by apply Ascii.eqb_eq.
    + right; right. by apply Ascii.eqb_eq.
  - intros Hbad. cbn in Hbad.
    destruct Hbad as [<-|[<-|[<-|[<-|[<-|[<-|[]]]]]]]; discriminate Hall.
Qed.

(** X5. The encoding loses nothing: two URLs with the same request path are
    the same URL. *)
Theorem open_tab_path_injective (url1 url2 : string) :
  "/json/new?" +:+ Urllib.urlencode [("url", url1)]
  = "/json/new?" +:+ Urllib.urlencode [("url", url2)] ->
  url1 = url2.
Proof.
  rewrite !open_tab_path. intros Heq.
  apply (inj (String.app "/json/new?url=")) in Heq.
  rewrite <- (unquote_quote_plus url1), <- (unquote_quote_plus url2). by rewrite Heq.
Qed.

Section LifecycleProperties.

Context {json : Type}.
Variable json_loads : string -> Result json.

(** ** Bounds of the readiness poll *)

(** Whatever the fuel, a poll that ends is a run of failed attempts ended by
    a success or by the deadline. *)
Lemma wait_loop_inv (self : BrowserController) (deadline : Z) (fuel : nat) :
  forall (last_error : option exn) (w : World) (r : Result unit) (w' : World),
    wait_loop json_loads fuel self deadline last_error w = Some (r, w') ->
    exists errs wk,
      failed_attempts json_loads self deadline w errs wk
      /\ ((exists v, r = inr tt /\ clock wk < deadline
                     /\ list_tabs json_loads self wk = (inr v, w'))
          \/ (r = inl (timeout_error (last_seen last_error errs))
              /\ w' = wk /\ deadline <= clock wk)).
Proof.
  induction fuel as [|fuel IH]; intros last_error w r w'; [done|].
  cbn [wait_loop]. destruct (Z.ltb_spec (clock w) deadline) as [Hlt|Hge].
  - destruct (list_tabs json_loads self w) as [[exc|v] w1] eqn:Htabs.
    + cbn [sleep]. intros Hrun. apply IH in Hrun as (errs & wk & Hfa & Hres).
      exists (exc :: errs), wk. split; [econstructor; eauto|].
      destruct Hres as [?|(-> & -> & Hge)]; [by left|].
      right. split; [|done]. unfold last_seen.
      destruct errs as [|e errs]; [done|].
      change (last (exc :: e :: errs)) with (last (e :: errs)).
      destruct (last (e :: errs)) eqn:Hlast; [done|]. by apply last_None in Hlast.
    + intros [= <- <-]. exists [], w. split; [constructor|]. left. by exists v.
  - intros [= <- <-]. exists [], w. split; [constructor|]. by right.
Qed.

Lemma list_tabs_clock (self : BrowserController) (w : World) (r : Result json) (w1 : World) :
  list_tabs json_loads self w = (r, w1) ->
  clock w1 = clock w + Z.of_N (fst (_http_client self w (base_url self +:+ "/json/list"))).
Proof. rewrite list_tabs_run. by intros [= _ <-]. Qed.

(** Each failed attempt but the last started at least 500 ms before the
    next, and the last started before the deadline. *)
Lemma failed_attempts_count (self : BrowserController) (deadline : Z) (w : World)
      (errs : list exn) (wk : World) :
  failed_attempts json_loads self deadline w errs wk ->
  clock w + 500 * Z.of_nat (length errs) <= clock wk
  /\ (errs = [] \/ 500 * (Z.of_nat (length errs) - 1) < deadline - clock w).
Proof.
  induction 1 as [w|w exc w1 errs w' Hlt Hfail _ (IHc & IHn)].
  - cbn. split; [lia | by left].
  - apply list_tabs_world in Hfail as (_ & _ & Hc). cbn in IHc, IHn.
    cbn [length]. split; [lia|]. right. destruct IHn as [->|IHn]; cbn; lia.
Qed.

Lemma failed_attempts_end (self : BrowserController) (deadline T : Z) (w : World)
      (errs : list exn) (wk : World) :
  (forall w0 url, Z.of_N (fst (_http_client self w0 url)) <= T) ->
  failed_attempts json_loads self deadline w errs wk ->
  (errs = [] /\ wk = w) \/ (clock w < deadline /\ clock wk < deadline + T + 500).
Proof.
  intros HT. induction 1 as [w|w exc w1 errs w' Hlt Hfail _ IH]; [by left|].
  right. split; [done|]. apply list_tabs_clock in Hfail.
  specialize (HT w (base_url self +:+ "/json/list")).
  destruct IH as [(-> & ->)|(_ & IH)]; cbn in *; lia.
Qed.

(** X6. However the endpoint behaves, a poll makes at most
    [ceil(startup_timeout / 0.5 s)] requests, and none when the timeout is
    not positive: what it adds to the trace is some failed attempts, each a
    request and a sleep, and one more request when it succeeds. *)
Theorem poll_attempts_bounded (self : BrowserController) (w : World) (fuel : nat)
        (r : Result unit) (w' : World) :
  _wait_until_ready json_loads fuel self w = Some (r, w') ->
  exists failed : nat,
    let succeeded := match r with inr _ => 1%nat | inl _ => 0%nat end in
    trace w' = trace w ++ polling_events self failed
                 ++ repeat (EvRequest (base_url self +:+ "/json/list")) succeeded
    /\ 500 * Z.of_nat (failed + succeeded) < Z.max 0 (startup_timeout self) + 500.
Proof.
  unfold _wait_until_ready. intros Hrun.
  apply wait_loop_inv in Hrun as (errs & wk & Hfa & Hres).
  pose proof (failed_attempts_world _ _ _ _ _ _ Hfa) as (Ht & _ & _).
  pose proof (failed_attempts_count _ _ _ _ _ Hfa) as (Hc & Hn).
  exists (length errs).
  destruct Hres as [(v & -> & Hlt & Hok)|(-> & -> & Hge)]; cbn zeta.
  - apply list_tabs_world in Hok as (Ht' & _ & _).
    split; [by rewrite Ht', Ht, <- app_assoc|]. lia.
  - split; [by rewrite Ht, app_nil_r|]. destruct Hn as [->|Hn]; cbn; lia.
Qed.

(** X7. When no request takes longer than [T], a poll is over less than
    [startup_timeout + T + 0.5 s] after it began (less than [T + 0.5 s] when
    the timeout is not positive). *)
Theorem poll_duration_bounded (self : BrowserController) (T : Z) (w : World)
        (fuel : nat) (r : Result unit) (w' : World) :
  (forall w0 url, Z.of_N (fst (_http_client self w0 url)) <= T) ->
  _wait_until_ready json_loads fuel self w = Some (r, w') ->
  clock w <= clock w' < clock w + Z.max 0 (startup_timeout self) + T + 500.
Proof.
  intros HT. unfold _wait_until_ready. intros Hrun.
  pose proof (HT w "") as HT0.
  apply wait_loop_inv in Hrun as (errs & wk & Hfa & Hres).
  pose proof (failed_attempts_count _ _ _ _ _ Hfa) as (Hc & _).
  pose proof (failed_attempts_end _ _ T _ _ _ HT Hfa) as Hend.
  destruct Hres as [(v & -> & Hlt & Hok)|(-> & -> & Hge)].
  - apply list_tabs_clock in Hok.
    specialize (HT wk (base_url self +:+ "/json/list")). lia.
  - destruct Hend as [(-> & ->)|(Hlt & Hend)]; lia.
Qed.

(** ** Edge cases of [launch_browser] *)

(** X8. With a start-up timeout that is not positive, a launch that finds
    no running process spawns one, requests nothing, and fails with
    [TimeoutError] without a cause; the controller keeps the handle of the
    process it spawned. *)
Theorem launch_without_time (self : BrowserController) (headless : bool)
        (user_data_dir : option string) (additional_args : option (list string))
        (w : World) (fuel : nat) (p : Popen) :
  startup_timeout self <= 0 ->
  is_browser_running self w = false ->
  _process_factory self w (launch_args self headless user_data_dir additional_args) = inr p ->
  launch_browser json_loads (S fuel) self headless user_data_dir additional_args w
  = Some (inl (timeout_error None),
          set_process self (Some (length (processes w))),
          mkWorld (clock w) (processes w ++ [p])
                  (trace w ++ [EvSpawn (launch_args self headless user_data_dir
                                                    additional_args)])).
Proof.
  intros Hto Hidle Hspawn. unfold launch_browser, spawn, _wait_until_ready.
  rewrite Hidle, Hspawn. cbn.
  destruct (Z.ltb_spec (clock w) (clock w + startup_timeout self)); [lia|done].
Qed.

(** X9. When the process factory raises, [launch_browser] raises the same
    error: nothing is requested and the controller is left as it was, with
    the handle it had. *)
Theorem launch_spawn_failure (self : BrowserController) (headless : bool)
        (user_data_dir : option string) (additional_args : option (list string))
        (w : World) (fuel : nat) (e : exn) :
  is_browser_running self w = false ->
  _process_factory self w (launch_args self headless user_data_dir additional_args) = inl e ->
  launch_browser json_loads fuel self headless user_data_dir additional_args w
  = Some (inl e, self,
          mkWorld (clock w) (processes w)
                  (trace w ++ [EvSpawn (launch_args self headless user_data_dir
                                                    additional_args)])).
Proof.
  intros Hidle Hspawn. unfold launch_browser, spawn. by rewrite Hidle, Hspawn.
Qed.

(** X10. When the factory returns a process, the timeout is positive and
    the endpoint answers the first [listTabs], a launch succeeds after
    exactly one spawn and one request; the controller then holds the new
    process, whatever handle it held before, and [is_browser_running] tells
    whether that process is still alive. *)
Theorem launch_first_attempt (self : BrowserController) (headless : bool)
        (user_data_dir : option string) (additional_args : option (list string))
        (w : World) (fuel : nat) (p : Popen) (v : json) (w2 : World) :
  let args := launch_args self headless user_data_dir additional_args in
  let pid := length (processes w) in
  let self1 := set_process self (Some pid) in
  0 < startup_timeout self ->
  is_browser_running self w = false ->
  _process_factory self w args = inr p ->
  list_tabs json_loads self1
            (mkWorld (clock w) (processes w ++ [p]) (trace w ++ [EvSpawn args]))
  = (inr v, w2) ->
  launch_browser json_loads (S fuel) self headless user_data_dir additional_args w
  = Some (inr tt, self1, w2)
  /\ trace w2 = trace w ++ [EvSpawn args; EvRequest (base_url self +:+ "/json/list")]
  /\ is_browser_running self1 w2 = popen_alive (clock w2) p.
Proof.
  intros args pid self1 Hto Hidle Hspawn Hok.
  split; [|split].
  - unfold launch_browser, spawn, _wait_until_ready. rewrite Hidle.
    fold args. rewrite Hspawn. fold pid self1. cbn [wait_loop clock].
    destruct (Z.ltb_spec (clock w) (clock w + startup_timeout self1)) as [_|Hge].
    + by rewrite Hok.
    + cbn in Hge. lia.
  - apply list_tabs_world in Hok as (Ht & _ & _). rewrite Ht. cbn.
    by rewrite <- app_assoc.
  - apply list_tabs_world in Hok as (_ & Hp & _).
    unfold is_browser_running, ProcessHandle.is_running, ProcessHandle.lookup.
    cbn [_process self1 set_process]. rewrite Hp. cbn [processes].
    subst pid. by rewrite lookup_app_r, Nat.sub_diag by lia.
Qed.

(** ** What [terminate_browser] does to the processes *)

Lemma terminate_browser_run (self : BrowserController) (pid : nat) (p : Popen) (w : World) :
  _process self = Some pid ->
  processes w !! pid = Some p ->
  popen_alive (clock w) p = true ->
  let q := popen_signalled (clock w) p in
  let w1 := mkWorld (clock w) (alter (popen_signalled (clock w)) pid (processes w))
                    (trace w ++ [EvSignal pid]) in
  terminate_browser self w
  = (inr tt, set_process self None,
     match exit_time q with
     | Some t =>
         if t <=? clock w + 5000
         then advance (Z.max 0 (t - clock w)) (emit (EvWait pid 5000) w1)
         else advance 5000 (emit (EvWait pid 5000) w1)
     | None => advance 5000 (emit (EvWait pid 5000) w1)
     end).
Proof.
  intros Hheld Hp Halive q w1. unfold terminate_browser. rewrite Hheld.
  unfold bind, ProcessHandle.terminate, ProcessHandle.wait, try_except, bind,
         ProcessHandle.popen_terminate, ProcessHandle.popen_wait, ret,
         ProcessHandle.is_running, ProcessHandle.lookup.
  rewrite Hp, Halive. cbn [clock processes trace emit].
  rewrite list_lookup_alter_eq, Hp. cbn [fmap option_fmap option_map]. fold q.
  destruct (exit_time q) as [t|]; [destruct (t <=? clock w + 5000)|]; reflexivity.
Qed.

(** X11. A running process that exits within five seconds of SIGTERM is
    gone when [terminate_browser] returns: the signal is sent, the call
    waits no longer than the process takes, and afterwards neither the
    process is running nor does the controller hold a handle. *)
Theorem terminate_stops_process (self : BrowserController) (pid : nat) (p : Popen)
        (d : Z) (w : World) :
  _process self = Some pid ->
  processes w !! pid = Some p ->
  popen_alive (clock w) p = true ->
  term_delay p = Some d ->
  0 <= d <= 5000 ->
  exists w1,
    terminate_browser self w = (inr tt, set_process self None, w1)
    /\ trace w1 = trace w ++ [EvSignal pid; EvWait pid 5000]
    /\ clock w <= clock w1 <= clock w + d
    /\ ProcessHandle.is_running pid w1 = false
    /\ is_browser_running (set_process self None) w1 = false.
Proof.
  intros Hheld Hp Halive Hd Hrange.
  rewrite (terminate_browser_run self pid p w Hheld Hp Halive).
  unfold popen_alive in Halive. unfold popen_signalled. rewrite Hd.
  cbn [exit_time].
  set (t := match exit_time p with Some t0 => Z.min t0 (clock w + d) | None => clock w + d end).
  assert (Ht : clock w <= t <= clock w + d).
  { subst t. destruct (exit_time p) as [t0|]; [apply Z.ltb_lt in Halive|]; lia. }
  destruct (Z.leb_spec t (clock w + 5000)); [|lia].
  eexists. split; [reflexivity|]. cbn. rewrite <- app_assoc.
  split; [done|]. split; [lia|]. split; [|done].
  unfold ProcessHandle.is_running, ProcessHandle.lookup. cbn.
  rewrite list_lookup_alter_eq, Hp. cbn. unfold popen_alive, popen_signalled.
  rewrite Hd. cbn. fold t. apply Z.ltb_ge. lia.
Qed.

(** X12. [terminate_browser] does not insist: when the process ignores
    SIGTERM and would not exit by itself within five seconds, the call sends
    the signal, waits exactly five seconds, and drops the handle while the
    process is still running. *)
Theorem terminate_abandons_process (self : BrowserController) (pid : nat) (p : Popen)
        (w : World) :
  _process self = Some pid ->
  processes w !! pid = Some p ->
  term_delay p = None ->
  popen_alive (clock w + 5000) p = true ->
  exists w1,
    terminate_browser self w = (inr tt, set_process self None, w1)
    /\ trace w1 = trace w ++ [EvSignal pid; EvWait pid 5000]
    /\ clock w1 = clock w + 5000
    /\ ProcessHandle.is_running pid w1 = true
    /\ is_browser_running (set_process self None) w1 = false.
Proof.
  intros Hheld Hp Hd Hlater.
  assert (Halive : popen_alive (clock w) p = true).
  { unfold popen_alive in *. destruct (exit_time p); [|done].
    apply Z.ltb_lt in Hlater. apply Z.ltb_lt. lia. }
  rewrite (terminate_browser_run self pid p w Hheld Hp Halive).
  assert (Hq : popen_signalled (clock w) p = p).
  { unfold popen_signalled. by rewrite Hd. }
  rewrite Hq.
  assert (Hw1 : forall w1,
             w1 = advance 5000 (emit (EvWait pid 5000)
                    (mkWorld (clock w) (alter (popen_signalled (clock w)) pid (processes w))
                             (trace w ++ [EvSignal pid]))) ->
             trace w1 = trace w ++ [EvSignal pid; EvWait pid 5000]
             /\ clock w1 = clock w + 5000
             /\ ProcessHandle.is_running pid w1 = true
             /\ is_browser_running (set_process self None) w1 = false).
  { intros w1 ->. cbn. rewrite <- app_assoc. split; [done|]. split; [done|].
    split; [|done]. unfold ProcessHandle.is_running, ProcessHandle.lookup. cbn.
    by rewrite list_lookup_alter_eq, Hp; cbn; rewrite Hq. }
  unfold popen_alive in Hlater.
  destruct (exit_time p) as [t|]; [apply Z.ltb_lt in Hlater|].
  - destruct (Z.leb_spec t (clock w + 5000)); [lia|]. eexists. split; [reflexivity|]. by apply Hw1.
  - eexists. split; [reflexivity|]. by apply Hw1.
Qed.

Lemma terminate_browser_processes (self : BrowserController) (w : World) :
  processes (snd (terminate_browser self w)) = processes w
  \/ exists pid,
       _process self = Some pid
       /\ processes (snd (terminate_browser self w))
          = alter (popen_signalled (clock w)) pid (processes w).
Proof.
  unfold terminate_browser. destruct (_process self) as [pid|]; [|by left].
  unfold bind, ProcessHandle.terminate, ProcessHandle.wait, try_except, bind,
         ProcessHandle.popen_terminate, ProcessHandle.popen_wait, ret.
  destruct (ProcessHandle.is_running pid w); cbn.
  - right. exists pid. split; [done|].
    destruct (ProcessHandle.lookup _ pid) as [q|]; [destruct (exit_time q) as [t|]|];
      [destruct (t <=? clock w + 5000)|..]; reflexivity.
  - left.
    destruct (ProcessHandle.lookup _ pid) as [q|]; [destruct (exit_time q) as [t|]|];
      [destruct (t <=? clock w + 5000)|..]; reflexivity.
Qed.

(** X13. [terminate_browser] touches no process but the one whose handle
    the controller holds, and never adds or removes one. *)
Theorem terminate_leaves_other_processes (self : BrowserController) (w : World)
        (pid' : nat) :
  _process self <> Some pid' ->
  processes (snd (terminate_browser self w)) !! pid' = processes w !! pid'
  /\ length (processes (snd (terminate_browser self w))) = length (processes w).
Proof.
  intros Hother.
  destruct (terminate_browser_processes self w) as [->|(pid & Hheld & ->)]; [done|].
  rewrite length_alter. split; [|done].
  apply list_lookup_alter_ne. congruence.
Qed.

End LifecycleProperties.

(** * Properties of the native bridge helpers *)

(** ** [format_command] *)

Lemma app_empty_r (s : string) : s +:+ "" = s.
Proof.
  induction s as [|c s IH]; [done|].
  change (String c s +:+ "") with (String c (s +:+ "")). by rewrite IH.
Qed.

Lemma app_assoc_string (s t u : string) : (s +:+ t) +:+ u = s +:+ (t +:+ u).
Proof.
  induction s as [|c s IH]; [done|].
  change (String c s +:+ t) with (String c (s +:+ t)).
  change (String c (s +:+ t) +:+ u) with (String c ((s +:+ t) +:+ u)).
  change (String c s +:+ (t +:+ u)) with (String c (s +:+ (t +:+ u))).
  by rewrite IH.
Qed.

Lemma snoc_app (tok : string) (c : ascii) (s : string) :
  Shlex.snoc tok c +:+ s = tok +:+ String c s.
Proof. unfold Shlex.snoc. by rewrite app_assoc_string. Qed.

Lemma shell_safe_plain (c : ascii) :
  Shlex.shell_safe c = true ->
  Shlex.is_blank c = false /\ Ascii.eqb c Shlex.squote = false
  /\ Ascii.eqb c Shlex.dquote = false /\ Ascii.eqb c Shlex.backslash = false.
Proof. destruct c as [[] [] [] [] [] [] [] []]; intros H; try discriminate H; done. Qed.

(** A safe byte outside quotes is taken as it is. *)
Lemma split_go_safe_byte (st : Shlex.lex_state) (tok : string) (c : ascii) (rest : string) :
  st = Shlex.Blank \/ st = Shlex.Unquoted ->
  Shlex.shell_safe c = true ->
  Shlex.split_go st tok (String c rest) = Shlex.split_go Shlex.Unquoted (Shlex.snoc tok c) rest.
Proof.
  intros Hst (Hb & Hs & Hd & Hbs)%shell_safe_plain.
  destruct Hst as [-> | ->]; cbn [Shlex.split_go]; by rewrite Hb, Hs, Hd, Hbs.
Qed.

Lemma split_go_safe (s : string) :
  forall (tok rest : string),
    forallb Shlex.shell_safe (list_ascii_of_string s) = true ->
    Shlex.split_go Shlex.Unquoted tok (s +:+ rest)
    = Shlex.split_go Shlex.Unquoted (tok +:+ s) rest.
Proof.
  induction s as [|c s IH]; intros tok rest Hsafe.
  - by rewrite app_empty_r.
  - cbn in Hsafe. apply andb_true_iff in Hsafe as [Hc Hs].
    change (String c s +:+ rest) with (String c (s +:+ rest)).
    rewrite split_go_safe_byte by auto. rewrite IH by done. by rewrite snoc_app.
Qed.

Lemma split_go_escaped_quote (tok rest : string) :
  Shlex.split_go Shlex.Single tok
    (String Shlex.squote (String Shlex.dquote (String Shlex.squote
       (String Shlex.dquote (String Shlex.squote rest)))))
  = Shlex.split_go Shlex.Single (Shlex.snoc tok Shlex.squote) rest.
Proof. reflexivity. Qed.

(** Inside single quotes, the escaped text reads back as the text. *)
Lemma split_go_single (s : string) :
  forall (tok rest : string),
    Shlex.split_go Shlex.Single tok (Shlex.escape_quotes s +:+ String Shlex.squote rest)
    = Shlex.split_go Shlex.Unquoted (tok +:+ s) rest.
Proof.
  induction s as [|c s IH]; intros tok rest.
  - rewrite app_empty_r. reflexivity.
  - cbn [Shlex.escape_quotes]. destruct (Ascii.eqb c Shlex.squote) eqn:Hc.
    + apply Ascii.eqb_eq in Hc as ->.
      change (String Shlex.squote (String Shlex.dquote (String Shlex.squote
                (String Shlex.dquote (String Shlex.squote (Shlex.escape_quotes s)))))
              +:+ String Shlex.squote rest)
        with (String Shlex.squote (String Shlex.dquote (String Shlex.squote
                (String Shlex.dquote (String Shlex.squote
                   (Shlex.escape_quotes s +:+ String Shlex.squote rest)))))).
      rewrite split_go_escaped_quote, IH. by rewrite snoc_app.
    + change (String c (Shlex.escape_quotes s) +:+ String Shlex.squote rest)
        with (String c (Shlex.escape_quotes s +:+ String Shlex.squote rest)).
      cbn [Shlex.split_go]. rewrite Hc, IH. by rewrite snoc_app.
Qed.

(** A quoted word, met between words, reads back as the word. *)
Lemma split_go_quote (s rest : string) :
  Shlex.split_go Shlex.Blank "" (Shlex.quote s +:+ rest)
  = Shlex.split_go Shlex.Unquoted s rest.
Proof.
  unfold Shlex.quote. destruct s as [|c s]; [reflexivity|].
  destruct (forallb Shlex.shell_safe (list_ascii_of_string (String c s))) eqn:Hsafe.
  - cbn in Hsafe. apply andb_true_iff in Hsafe as [Hc Hs].
    change (String c s +:+ rest) with (String c (s +:+ rest)).
    rewrite split_go_safe_byte by auto. by rewrite split_go_safe.
  - change (String Shlex.squote (Shlex.escape_quotes (String c s) +:+ String Shlex.squote "")
            +:+ rest)
      with (String Shlex.squote
              ((Shlex.escape_quotes (String c s) +:+ String Shlex.squote "") +:+ rest)).
    rewrite app_assoc_string.
    change (String Shlex.squote "" +:+ rest) with (String Shlex.squote rest).
    change (Shlex.split_go Shlex.Blank ""
              (String Shlex.squote
                 (Shlex.escape_quotes (String c s) +:+ String Shlex.squote rest)))
      with (Shlex.split_go Shlex.Single ""
              (Shlex.escape_quotes (String c s) +:+ String Shlex.squote rest)).
    by rewrite split_go_single.
Qed.

(** X14. A command formatted by [format_command] reads back, by the word
    splitting of a POSIX shell, as the very list of words it was made from:
    no word is split, merged, lost or changed, whatever bytes it holds, and
    an empty word stays a word. *)
Theorem format_command_round_trip (command : list string) :
  Shlex.split (format_command command) = Some command.
Proof.
  unfold Shlex.split, format_command.
  induction command as [|part rest IH]; [reflexivity|].
  destruct rest as [|part2 rest].
  - cbn [map Shlex.join]. rewrite <- (app_empty_r (Shlex.quote part)).
    by rewrite split_go_quote.
  - change (Shlex.join " " (map Shlex.quote (part :: part2 :: rest)))
      with (Shlex.quote part +:+ " " +:+ Shlex.join " " (map Shlex.quote (part2 :: rest))).
    rewrite split_go_quote.
    change (" " +:+ Shlex.join " " (map Shlex.quote (part2 :: rest)))
      with (String " " (Shlex.join " " (map Shlex.quote (part2 :: rest)))).
    cbn [Shlex.split_go]. change (Shlex.is_blank " ") with true. cbv iota.
    by rewrite IH.
Qed.

Example format_command_example :
  format_command ["echo"; "it's"; ""; "a b"; "x=1"]
  = "echo " +:+ String Shlex.squote ("it" +:+ String Shlex.squote (String Shlex.dquote
      (String Shlex.squote (String Shlex.dquote (String Shlex.squote
         ("s" +:+ String Shlex.squote (" " +:+ String Shlex.squote (String Shlex.squote
            (" " +:+ String Shlex.squote ("a b" +:+ String Shlex.squote " x=1")))))))))).
Proof. reflexivity. Qed.

(** ** [register], [is_allowed], [describe] and [run] *)

(** X15. After [register(name, command)], whether or not the name was
    registered before, the name is allowed, [describe] shows the command
    under it, and [run] executes that command followed by the extra
    arguments, provided none of them starts with [--unsafe]. *)
Theorem register_then_run (os : NativeBridge.OS) (self : NativeBridge.t)
        (name : string) (command : list string) (extra_args : option (list string))
        (log : NativeBridge.Executed) :
  existsb NativeBridge.unsafe (default [] extra_args) = false ->
  let self' := NativeBridge.register self name command in
  NativeBridge.is_allowed self' name = true
  /\ describe self' !! name = Some command
  /\ NativeBridge.run os self' name extra_args log
     = NativeBridge.subprocess_run os (command ++ default [] extra_args)
                                   (NativeBridge.environment self) log.
Proof.
  intros Hsafe self'.
  assert (Hlookup : NativeBridge.allowlist self' !! name = Some command).
  { apply lookup_insert_eq. }
  split; [|split; [done|]].
  - unfold NativeBridge.is_allowed. apply bool_decide_eq_true. by rewrite Hlookup.
  - unfold NativeBridge.run. rewrite Hlookup.
    destruct extra_args as [[|a l]|].
    + change (default [] (Some [])) with (@nil string). by rewrite app_nil_r.
    + change (default [] (Some (a :: l))) with (a :: l) in *.
      by rewrite NativeBridgeProperties.extend_args_eq, Hsafe.
    + change (default [] None) with (@nil string). by rewrite app_nil_r.
Qed.

(** X16. [register] changes one name only: every other name is allowed or
    not as before, described as before, and [run] on it does what it did. *)
Theorem register_leaves_other_names (os : NativeBridge.OS) (self : NativeBridge.t)
        (name other : string) (command : list string) (extra_args : option (list string))
        (log : NativeBridge.Executed) :
  other <> name ->
  let self' := NativeBridge.register self name command in
  NativeBridge.is_allowed self' other = NativeBridge.is_allowed self other
  /\ describe self' !! other = describe self !! other
  /\ NativeBridge.run os self' other extra_args log
     = NativeBridge.run os self other extra_args log.
Proof.
  intros Hne self'.
  assert (Hlookup : NativeBridge.allowlist self' !! other
                    = NativeBridge.allowlist self !! other).
  { apply lookup_insert_ne. done. }
  split; [|split; [done|]].
  - unfold NativeBridge.is_allowed. by rewrite Hlookup.
  - unfold NativeBridge.run. by rewrite Hlookup.
Qed.

(** * Properties of the planner and the executor *)

Lemma after_first_None (sep s : string) :
  RuleBasedPlanner.after_first sep s = None <-> contains sep s = false.
Proof.
  induction s as [|c s IH].
  - cbn [RuleBasedPlanner.after_first contains].
    destruct (String.prefix sep ""); cbn; split; done.
  - cbn [RuleBasedPlanner.after_first contains].
    destruct (String.prefix sep (String c s)); cbn; [split; done | exact IH].
Qed.

Lemma open_url_well_formed (url : string) :
  String.prefix "http" url = true ->
  malformed (RuleBasedPlanner.open_url url) = false
  /\ action_op (RuleBasedPlanner.open_url url) = Some (OpenTab url).
Proof. destruct url as [|c url]; [done|]. intros _. split; reflexivity. Qed.

Section PlannerProperties.

Variable lower : string -> string.
Variable strip : string -> string.

Lemma plan_shape (request : string) (actions : list Action) :
  RuleBasedPlanner.plan lower strip request = inr actions ->
  exists url,
    actions = [RuleBasedPlanner.open_url url] /\ String.prefix "http" url = true.
Proof.
  unfold RuleBasedPlanner.plan.
  destruct (String.prefix "open " (strip (lower request))).
  - destruct (String.prefix "http" (strip (RuleBasedPlanner.drop_chars 5 request))) eqn:Hhttp;
      cbn [negb]; intros [= <-]; eexists; split; done.
  - destruct (contains "search for" (strip (lower request))).
    + destruct (RuleBasedPlanner.after_first "search for" request); [|done].
      intros [= <-]. eexists; split; done.
    + intros [= <-]. eexists; split; done.
Qed.

(** X17. Whatever the request, and whatever [lower] and [strip] do, a plan
    that [RuleBasedPlanner.plan] returns is exactly one [open_url] action
    whose [url] starts with [http]; so the dispatcher never rejects a
    planned action. *)
Theorem plan_single_open_url (request : string) (actions : list Action) :
  RuleBasedPlanner.plan lower strip request = inr actions ->
  exists url,
    actions = [RuleBasedPlanner.open_url url]
    /\ RuleBasedPlanner.open_url url !! "type" = Some "open_url"
    /\ RuleBasedPlanner.open_url url !! "url" = Some url
    /\ String.prefix "http" url = true
    /\ malformed (RuleBasedPlanner.open_url url) = false.
Proof.
  intros (url & -> & Hhttp)%plan_shape. exists url.
  destruct (open_url_well_formed url Hhttp) as [Hwf _].
  repeat split; done.
Qed.

(** X18. [plan] raises, with [IndexError], exactly when the request is not
    an [open] request and [search for] occurs in the lowered request but not
    in the request as typed (as in a request that writes it with a capital);
    it raises nothing else. *)
Theorem plan_index_error (request : string) (err : raised) :
  RuleBasedPlanner.plan lower strip request = inl err <->
  err = IndexError
  /\ String.prefix "open " (strip (lower request)) = false
  /\ contains "search for" (strip (lower request)) = true
  /\ contains "search for" request = false.
Proof.
  unfold RuleBasedPlanner.plan.
  destruct (String.prefix "open " (strip (lower request))).
  { split; [done|]. by intros (_ & ? & _). }
  destruct (contains "search for" (strip (lower request))).
  2: { split; [done|]. by intros (_ & _ & ? & _). }
  destruct (RuleBasedPlanner.after_first "search for" request) as [rest|] eqn:Hafter.
  - split; [done|]. intros (_ & _ & _ & Hno).
    apply after_first_None in Hno. congruence.
  - apply after_first_None in Hafter. split.
    + intros [= <-]. done.
    + by intros (-> & _).
Qed.

End PlannerProperties.

Section ExecutorProperties.

Context {json : Type}.
Variable json_loads : string -> Result json.

Lemma stream_loop_spec (self : ActionExecutor.t) (plan : list Action) :
  forall (results : list json) (w : World),
    let ctl := ActionExecutor.browser_controller self in
    let '(items, err, w2) :=
      ActionExecutor.stream_loop json_loads self plan (map inr results) w in
    match perform_loop json_loads ctl plan results w with
    | (inr all, w1) => w2 = w1 /\ err = None /\ items = map inr all
    | (inl e, w1) =>
        w2 = w1 /\ err = Some (Raised e)
        /\ exists pre action post rs wa,
            plan = pre ++ action :: post
            /\ dispatched json_loads ctl w pre rs wa
            /\ execute_action json_loads ctl action wa = (inl e, w1)
            /\ items = map inr (results ++ rs)
    end.
Proof.
  induction plan as [|action rest IH]; intros results w ctl.
  - cbn. done.
  - cbn [ActionExecutor.stream_loop perform_loop]. unfold bind. fold ctl.
    destruct (execute_action json_loads ctl action w) as [[e|r] w'] eqn:Hex.
    + split; [done|]. split; [done|].
      exists [], action, rest, [], w. rewrite app_nil_r.
      repeat split; try done. constructor.
    + specialize (IH (results ++ [r]) w'). rewrite map_app in IH. cbn [map] in IH.
      destruct (ActionExecutor.stream_loop json_loads self rest _ w') as [[items err] w2].
      fold ctl in IH.
      destruct (perform_loop json_loads ctl rest (results ++ [r]) w') as [[e|all] w1];
        [|done].
      destruct IH as (-> & -> & pre & a & post & rs & wa & -> & Hd & Hfail & ->).
      split; [done|]. split; [done|].
      exists (action :: pre), a, post, (r :: rs), wa.
      rewrite <- app_assoc. repeat split; try done. econstructor; eauto.
Qed.

(** X19. [stream_execution], consumed to its end, and [execute] do the
    same to the world and end the same way: when [execute] returns a list,
    the stream yields exactly that list and ends normally; when [execute]
    raises, the stream raises the same exception; if the planner had
    returned a plan, that exception is the one with which the dispatch of
    one action of the plan failed, every action before it was dispatched
    successfully, the stream yielded exactly their results, in order, and
    the world is the one that the failed dispatch left. A dry run leaves
    the world untouched. *)
Theorem stream_agrees_with_execute (self : ActionExecutor.t) (request : string)
        (dry_run : bool) (w : World) :
  let ctl := ActionExecutor.browser_controller self in
  let '(r, w1) := ActionExecutor.execute json_loads self request dry_run w in
  let '(items, err, w2) :=
    ActionExecutor.stream_execution json_loads self request dry_run w in
  w2 = w1
  /\ (dry_run = true -> w1 = w)
  /\ match r with
     | inr all => err = None /\ items = all
     | inl e =>
         err = Some e
         /\ forall plan, ActionExecutor.planner self request = inr plan ->
              exists e' pre action post rs wa,
                e = Raised e'
                /\ plan = pre ++ action :: post
                /\ dispatched json_loads ctl w pre rs wa
                /\ execute_action json_loads ctl action wa = (inl e', w1)
                /\ items = map inr rs
     end.
Proof.
  intros ctl. unfold ActionExecutor.execute, ActionExecutor.stream_execution.
  destruct (ActionExecutor.planner self request) as [perr|plan].
  { repeat split; done. }
  destruct dry_run.
  { repeat split; done. }
  pose proof (stream_loop_spec self plan [] w) as Hspec.
  cbv zeta in Hspec.
  change (ActionExecutor.stream_loop json_loads self plan (map inr []) w)
    with (ActionExecutor.stream_loop json_loads self plan [] w) in Hspec.
  unfold perform_actions, ctl. clear ctl.
  destruct (ActionExecutor.stream_loop json_loads self plan [] w) as [[items err] w2].
  destruct (perform_loop json_loads (ActionExecutor.browser_controller self) plan [] w)
    as [[e|all] w1]; cbv beta iota in Hspec |- *.
  - destruct Hspec as (-> & -> & pre & a & post & rs & wa & -> & Hd & Hfail & ->).
    split; [done|]. split; [done|]. split; [done|].
    intros plan [= <-]. by exists e, pre, a, post, rs, wa.
  - destruct Hspec as (-> & -> & ->). repeat split; done.
Qed.

(** X20. With the rule-based planner, a request that is planned is carried
    out by one call of [open_tab] on a URL that starts with [http]: exactly
    one request is made, to [/json/new?url=<encoded url>]; the call returns
    the one result, or raises what [open_tab] raised. No action of the plan
    is ever rejected. *)
Theorem rule_based_execute (lower strip : string -> string) (ctl : BrowserController)
        (request : string) (actions : list Action) (w : World) :
  let self := ActionExecutor.mkExecutor ctl (RuleBasedPlanner.plan lower strip) in
  RuleBasedPlanner.plan lower strip request = inr actions ->
  exists url,
    actions = [RuleBasedPlanner.open_url url]
    /\ String.prefix "http" url = true
    /\ ActionExecutor.execute json_loads self request false w
       = match open_tab json_loads ctl url w with
         | (inr v, w') => (inr [inr v], w')
         | (inl e, w') => (inl (Raised e), w')
         end
    /\ trace (snd (ActionExecutor.execute json_loads self request false w))
       = trace w ++ [EvRequest (base_url ctl +:+ "/json/new?url=" +:+ Urllib.quote_plus url)].
Proof.
  intros self Hplan. destruct (plan_shape lower strip request actions Hplan)
    as (url & -> & Hhttp).
  destruct (open_url_well_formed url Hhttp) as [_ Hop].
  exists url. split; [done|]. split; [done|].
  assert (Hrun : ActionExecutor.execute json_loads self request false w
                 = match open_tab json_loads ctl url w with
                   | (inr v, w') => (inr [inr v], w')
                   | (inl e, w') => (inl (Raised e), w')
                   end).
  { unfold ActionExecutor.execute, self.
    cbn [ActionExecutor.planner ActionExecutor.browser_controller]. rewrite Hplan.
    unfold perform_actions. cbn [perform_loop]. unfold bind.
    rewrite execute_action_eq, Hop. cbn [run_op].
    by destruct (open_tab json_loads ctl url w) as [[e|v] w']. }
  split; [done|]. rewrite Hrun.
  change (open_tab json_loads ctl url w) with (run_op json_loads ctl (OpenTab url) w).
  rewrite run_op_eq. cbn [op_path]. cbv zeta.
  by destruct (_http_client ctl w _) as [dt [e|body]]; [|destruct (json_loads body)].
Qed.

End ExecutorProperties.

(** The tests of [tests/test_planner.py] that concern the planner, on ASCII
    text. *)
Example rule_based_planner_open_url :
  RuleBasedPlanner.plan RuleBasedPlanner.ascii_lower RuleBasedPlanner.ascii_strip
    "open https://example.com"
  = inr [RuleBasedPlanner.open_url "https://example.com"].
Proof. reflexivity. Qed.

Example rule_based_planner_search :
  RuleBasedPlanner.plan RuleBasedPlanner.ascii_lower RuleBasedPlanner.ascii_strip
    "search for testing shortcuts"
  = inr [RuleBasedPlanner.open_url "https://www.google.com/search?q=testing+shortcuts"].
Proof. reflexivity. Qed.

Example rule_based_planner_capital_search :
  RuleBasedPlanner.plan RuleBasedPlanner.ascii_lower RuleBasedPlanner.ascii_strip
    "Search For cats"
  = inl IndexError.
Proof. reflexivity. Qed.

(** * Properties of the command line *)

Section CliProperties.

Context {json : Type}.
Variable json_loads : string -> Result json.
Variable urlopen : HTTPClient.
Variable popen : ProcessFactory.
Variable lower : string -> string.
Variable strip : string -> string.

(** What a launch that finds no running process does to the world. *)
Lemma launch_browser_world (self : BrowserController) (headless : bool)
      (user_data_dir : option string) (additional_args : option (list string))
      (w : World) (fuel : nat) (r : Result unit) (self' : BrowserController) (w' : World) :
  let args := launch_args self headless user_data_dir additional_args in
  is_browser_running self w = false ->
  launch_browser json_loads fuel self headless user_data_dir additional_args w
    = Some (r, self', w') ->
  (exists polling,
      trace w' = trace w ++ EvSpawn args :: polling /\ Forall polling_event polling)
  /\ match _process_factory self w args with
     | inr p =>
         self' = set_process self (Some (length (processes w)))
         /\ processes w' = processes w ++ [p]
     | inl e => self' = self /\ processes w' = processes w /\ r = inl e
     end.
Proof.
  intros args Hidle. unfold launch_browser, spawn. rewrite Hidle. fold args.
  destruct (_process_factory self w args) as [e|p].
  - intros [= <- <- <-]. split; [|done]. exists []. split; [done|constructor].
  - destruct (_wait_until_ready _ _ _ _) as [[r1 w2]|] eqn:Hwait; [|done].
    intros [= <- <- <-]. unfold _wait_until_ready in Hwait.
    apply wait_loop_world in Hwait as (Hp & (evs & Ht & Hall) & _).
    cbn in Ht, Hp. split; [|done]. exists evs. by rewrite Ht, <- app_assoc.
Qed.

(** What the stream of the rule-based planner does to the world: nothing,
    or one request to [/json/new]. *)
Lemma rule_based_stream_world (ctl : BrowserController) (request : string)
      (dry_run : bool) (w : World) :
  let executor := ActionExecutor.mkExecutor ctl (RuleBasedPlanner.plan lower strip) in
  let w2 := snd (ActionExecutor.stream_execution json_loads executor request dry_run w) in
  processes w2 = processes w
  /\ (trace w2 = trace w
      \/ exists url,
          trace w2 = trace w ++ [EvRequest (base_url ctl +:+ "/json/new?url="
                                            +:+ Urllib.quote_plus url)]).
Proof.
  intros executor w2. subst w2. unfold ActionExecutor.stream_execution, executor.
  cbn [ActionExecutor.planner].
  destruct (RuleBasedPlanner.plan lower strip request) as [err|actions] eqn:Hplan.
  { split; [done | by left]. }
  destruct dry_run.
  { split; [done | by left]. }
  apply plan_shape in Hplan as (url & -> & Hhttp).
  destruct (open_url_well_formed url Hhttp) as [_ Hop].
  cbn [ActionExecutor.stream_loop ActionExecutor.browser_controller].
  rewrite execute_action_eq, Hop, run_op_eq. cbn [op_path]. cbv zeta.
  destruct (_http_client ctl w _) as [dt [e|body]]; [|destruct (json_loads body)];
    (split; [done|]); right; by exists url.
Qed.

(** X21. When the launch of [run] fails, [main] lets the exception escape at
    once: nothing is planned or printed, and since the failure happens
    before the [try], nothing terminates the process. What happened is the
    spawn and the polling only; when a process was spawned the controller
    still holds it, and it is running if it is alive. *)
Theorem main_launch_failure (fuel : nat) (args : Cli.RunArgs) (w : World)
        (e : exn) (self1 : BrowserController) (w1 : World) :
  let self := Cli.new_controller urlopen popen args in
  let spawn_args := launch_args self (Cli.headless args) None None in
  Cli.no_launch args = false ->
  launch_browser json_loads fuel self (Cli.headless args) None None w
    = Some (inl e, self1, w1) ->
  Cli.main_run json_loads urlopen popen lower strip fuel args w
    = Some (Cli.mkOutcome (inl (Raised e)) [] self1 w1)
  /\ (exists polling,
         trace w1 = trace w ++ EvSpawn spawn_args :: polling
         /\ Forall polling_event polling)
  /\ (forall p, popen w spawn_args = inr p ->
        _process self1 = Some (length (processes w))
        /\ is_browser_running self1 w1 = popen_alive (clock w1) p).
Proof.
  intros self spawn_args Hlaunch Hfail. split; [|split].
  - unfold Cli.main_run. fold self. by rewrite Hlaunch, Hfail.
  - by apply launch_browser_world in Hfail as [? _].
  - intros p Hp. apply launch_browser_world in Hfail as [_ Hfail]; [|done].
    change (_process_factory self) with popen in Hfail. fold spawn_args in Hfail.
    rewrite Hp in Hfail. destruct Hfail as [-> Hprocs]. split; [done|].
    unfold is_browser_running, ProcessHandle.is_running, ProcessHandle.lookup.
    cbn [_process set_process]. rewrite Hprocs.
    by rewrite lookup_app_r, Nat.sub_diag by lia.
Qed.

(** X22. When the launch of [run] succeeds, [main] prints what the stream
    yields and ends with status 0, or with the exception that ended the
    stream; either way the [finally] clause has run: if the browser was
    still running it has been sent the signal and waited for, and in the end
    the controller reports no running browser. *)
Theorem main_cleans_up (fuel : nat) (args : Cli.RunArgs) (w : World)
        (self1 : BrowserController) (w1 : World) :
  let self := Cli.new_controller urlopen popen args in
  let executor := ActionExecutor.mkExecutor self1 (RuleBasedPlanner.plan lower strip) in
  Cli.no_launch args = false ->
  launch_browser json_loads fuel self (Cli.headless args) None None w
    = Some (inr tt, self1, w1) ->
  exists out,
    Cli.main_run json_loads urlopen popen lower strip fuel args w = Some out
    /\ (let '(items, err, w2) :=
          ActionExecutor.stream_execution json_loads executor (Cli.request args)
                                          (Cli.dry_run args) w1 in
        Cli.printed out = items
        /\ Cli.status out = match err with Some e => inl e | None => inr 0 end
        /\ (is_browser_running self1 w2 = false ->
              Cli.controller out = self1 /\ Cli.world out = w2)
        /\ (is_browser_running self1 w2 = true ->
              exists pid,
                _process self1 = Some pid
                /\ _process (Cli.controller out) = None
                /\ trace (Cli.world out) = trace w2 ++ [EvSignal pid; EvWait pid 5000]))
    /\ is_browser_running (Cli.controller out) (Cli.world out) = false.
Proof.
  intros self executor Hlaunch Hok. unfold Cli.main_run. fold self.
  rewrite Hlaunch, Hok. cbn [negb]. fold executor.
  destruct (ActionExecutor.stream_execution json_loads executor (Cli.request args)
              (Cli.dry_run args) w1) as [[items err] w2].
  unfold Cli.cleanup. rewrite Hlaunch. cbn [negb andb].
  destruct (is_browser_running self1 w2) eqn:Hrun.
  - unfold is_browser_running in Hrun.
    destruct (_process self1) as [pid|] eqn:Hheld; [|done].
    destruct (terminate_browser_held self1 pid w2 Hheld) as (w3 & Hterm & Ht & _).
    rewrite Hterm. eexists. split; [reflexivity|]. cbn.
    split; [|done]. split; [done|]. split; [done|]. split; [done|].
    intros _. exists pid. rewrite Hrun in Ht. done.
  - eexists. split; [reflexivity|]. cbn.
    split; [|done]. split; [done|]. split; [done|]. split; done.
Qed.

(** X23. With [--no-launch], [main] spawns nothing, signals nothing and
    waits for nothing, whatever the fuel: the processes are as they were and
    the trace has grown by at most one request, to [/json/new]; the
    controller never holds a handle. *)
Theorem main_no_launch (fuel : nat) (args : Cli.RunArgs) (w : World) :
  Cli.no_launch args = true ->
  exists out,
    Cli.main_run json_loads urlopen popen lower strip fuel args w = Some out
    /\ Cli.controller out = Cli.new_controller urlopen popen args
    /\ processes (Cli.world out) = processes w
    /\ (trace (Cli.world out) = trace w
        \/ exists url,
            trace (Cli.world out)
            = trace w ++ [EvRequest ("http://127.0.0.1:" +:+ pretty (Cli.port args)
                                     +:+ "/json/new?url=" +:+ Urllib.quote_plus url)]).
Proof.
  intros Hno. unfold Cli.main_run. rewrite Hno. cbn [negb].
  pose proof (rule_based_stream_world (Cli.new_controller urlopen popen args)
                (Cli.request args) (Cli.dry_run args) w) as Hworld.
  cbv zeta in Hworld.
  destruct (ActionExecutor.stream_execution json_loads _ (Cli.request args)
              (Cli.dry_run args) w) as [[items err] w2].
  unfold Cli.cleanup. rewrite Hno. cbn [negb andb].
  eexists. split; [reflexivity|]. cbn. cbn in Hworld.
  destruct Hworld as [Hp Ht]. split; [done|]. split; [done|].
  destruct Ht as [Ht|[url Ht]]; [by left|]. right. exists url.
  rewrite Ht. unfold base_url. cbn. by rewrite <- !app_assoc_string.
Qed.

End CliProperties.

(** * The further properties on concrete inputs *)

Lemma target_action_request_witness :
  execute_action Fake.json_loads Fake.controller Doubles.close_action Fake.world0
  = (inr (Fake.json_object "status" "ok"),
     mkWorld 0 [] [EvRequest "http://127.0.0.1:9333/json/close/target-1"]).
Proof.
  exact (target_action_request Fake.json_loads Fake.controller Doubles.close_action
           "close" "target-1" Fake.world0 (or_intror eq_refl) eq_refl eq_refl
           ltac:(discriminate)).
Defined.

Lemma execute_action_relevant_fields_witness :
  execute_action Fake.json_loads Fake.controller Doubles.close_action
  = execute_action Fake.json_loads Fake.controller Doubles.close_action_annotated.
Proof.
  apply (execute_action_relevant_fields Fake.json_loads Fake.controller
           Doubles.close_action Doubles.close_action_annotated).
  - reflexivity.
  - intros tag f Htag Hf. vm_compute in Htag. injection Htag as <-.
    vm_compute in Hf. injection Hf as <-. reflexivity.
Defined.

Lemma quote_plus_alphabet_witness :
  (Urllib.always_safe "+" = true \/ "+"%char = "+"%char \/ "+"%char = "%"%char)
  /\ ~ In "+"%char ["&"; "="; "#"; "?"; "/"; " "]%char.
Proof.
  apply (quote_plus_alphabet "a b" "+"%char). vm_compute. tauto.
Defined.

Lemma open_tab_path_injective_witness : "https://example.com" = "https://example.com".
Proof.
  exact (open_tab_path_injective "https://example.com" "https://example.com" eq_refl).
Defined.

Lemma poll_attempts_bounded_witness :
  exists failed : nat,
    [EvRequest "http://127.0.0.1:9333/json/list"; EvSleep 500;
     EvRequest "http://127.0.0.1:9333/json/list"; EvSleep 500;
     EvRequest "http://127.0.0.1:9333/json/list"]
    = [] ++ polling_events (Fake.controller_with (Fake.slow_start 2) 15000) failed
         ++ repeat (EvRequest "http://127.0.0.1:9333/json/list") 1
    /\ 500 * Z.of_nat (failed + 1) < Z.max 0 15000 + 500.
Proof.
  exact (poll_attempts_bounded Fake.json_loads
           (Fake.controller_with (Fake.slow_start 2) 15000) Fake.world0 40
           (inr tt) _ eq_refl).
Defined.

Lemma poll_duration_bounded_witness : 0 <= 1200 < 0 + Z.max 0 1000 + 100 + 500.
Proof.
  refine (poll_duration_bounded Fake.json_loads (Fake.controller_with Fake.refusing 1000)
            100 Fake.world0 40 (inl (timeout_error (Some Fake.connection_refused)))
            (mkWorld 1200 []
               [EvRequest "http://127.0.0.1:9333/json/list"; EvSleep 500;
                EvRequest "http://127.0.0.1:9333/json/list"; EvSleep 500])
            _ eq_refl).
  intros w0 url. simpl. lia.
Defined.

Lemma launch_without_time_witness :
  launch_browser Fake.json_loads 1 (Fake.controller_with Fake.http_client 0)
                 true None None Fake.world0
  = Some (inl (timeout_error None),
          set_process (Fake.controller_with Fake.http_client 0) (Some 0%nat),
          mkWorld 0 [Fake.process]
            [EvSpawn ["/usr/bin/chrome"; "--remote-debugging-port=9333";
                      "--remote-allow-origins=*"; "--headless=new"]]).
Proof.
  refine (launch_without_time Fake.json_loads (Fake.controller_with Fake.http_client 0)
            true None None Fake.world0 0 Fake.process _ eq_refl eq_refl).
  simpl. lia.
Defined.

Lemma launch_spawn_failure_witness :
  launch_browser Fake.json_loads 40 Doubles.controller_without_browser
                 true None None Fake.world0
  = Some (inl Doubles.no_such_file, Doubles.controller_without_browser,
          mkWorld 0 []
            [EvSpawn ["/usr/bin/chrome"; "--remote-debugging-port=9333";
                      "--remote-allow-origins=*"; "--headless=new"]]).
Proof.
  exact (launch_spawn_failure Fake.json_loads Doubles.controller_without_browser
           true None None Fake.world0 40 Doubles.no_such_file eq_refl eq_refl).
Defined.

Lemma launch_first_attempt_witness :
  launch_browser Fake.json_loads 1 Fake.controller true None None Fake.world0
  = Some (inr tt, Fake.running_controller,
          mkWorld 0 [Fake.process]
            [EvSpawn ["/usr/bin/chrome"; "--remote-debugging-port=9333";
                      "--remote-allow-origins=*"; "--headless=new"];
             EvRequest "http://127.0.0.1:9333/json/list"]).
Proof.
  refine (proj1 (launch_first_attempt Fake.json_loads Fake.controller true None None
                   Fake.world0 0 Fake.process "[]" _ _ eq_refl eq_refl eq_refl)).
  simpl. lia.
Defined.

Lemma terminate_stops_process_witness :
  exists w1,
    terminate_browser Fake.running_controller Fake.running_world
    = (inr tt, set_process Fake.running_controller None, w1)
    /\ trace w1 = trace Fake.running_world ++ [EvSignal 0; EvWait 0 5000]
    /\ clock Fake.running_world <= clock w1 <= clock Fake.running_world + 0
    /\ ProcessHandle.is_running 0 w1 = false
    /\ is_browser_running (set_process Fake.running_controller None) w1 = false.
Proof.
  refine (terminate_stops_process Fake.running_controller 0 Fake.process 0
            Fake.running_world eq_refl eq_refl eq_refl eq_refl _).
  lia.
Defined.

Lemma terminate_abandons_process_witness :
  exists w1,
    terminate_browser Fake.running_controller Doubles.stubborn_world
    = (inr tt, set_process Fake.running_controller None, w1)
    /\ trace w1 = trace Doubles.stubborn_world ++ [EvSignal 0; EvWait 0 5000]
    /\ clock w1 = clock Doubles.stubborn_world + 5000
    /\ ProcessHandle.is_running 0 w1 = true
    /\ is_browser_running (set_process Fake.running_controller None) w1 = false.
Proof.
  exact (terminate_abandons_process Fake.running_controller 0 Doubles.stubborn_process
           Doubles.stubborn_world eq_refl eq_refl eq_refl eq_refl).
Defined.

Lemma terminate_leaves_other_processes_witness :
  processes (snd (terminate_browser Fake.running_controller Doubles.two_processes)) !! 1%nat
  = Some Doubles.stubborn_process
  /\ length (processes (snd (terminate_browser Fake.running_controller
                                               Doubles.two_processes))) = 2%nat.
Proof.
  exact (terminate_leaves_other_processes Fake.running_controller Doubles.two_processes
           1 ltac:(discriminate)).
Defined.

Lemma register_then_run_witness :
  let bridge := NativeBridge.register Fake.bridge "lint" ["ruff"; "check"] in
  NativeBridge.is_allowed bridge "lint" = true
  /\ describe bridge !! "lint" = Some ["ruff"; "check"]
  /\ NativeBridge.run (Fake.exits_with 0) bridge "lint" (Some ["--fix"]) []
     = (inr (NativeBridge.mkCompleted ["ruff"; "check"; "--fix"] 0 "" ""),
        [["ruff"; "check"; "--fix"]]).
Proof.
  exact (register_then_run (Fake.exits_with 0) Fake.bridge "lint" ["ruff"; "check"]
           (Some ["--fix"]) [] eq_refl).
Defined.

Lemma register_leaves_other_names_witness :
  let bridge := NativeBridge.register Fake.bridge "lint" ["ruff"; "check"] in
  NativeBridge.is_allowed bridge "check" = NativeBridge.is_allowed Fake.bridge "check"
  /\ describe bridge !! "check" = describe Fake.bridge !! "check"
  /\ NativeBridge.run (Fake.exits_with 0) bridge "check" None []
     = NativeBridge.run (Fake.exits_with 0) Fake.bridge "check" None [].
Proof.
  exact (register_leaves_other_names (Fake.exits_with 0) Fake.bridge "lint" "check"
           ["ruff"; "check"] None [] ltac:(discriminate)).
Defined.

Lemma plan_single_open_url_witness :
  exists url,
    [RuleBasedPlanner.open_url "https://example.com"] = [RuleBasedPlanner.open_url url]
    /\ RuleBasedPlanner.open_url url !! "type" = Some "open_url"
    /\ RuleBasedPlanner.open_url url !! "url" = Some url
    /\ String.prefix "http" url = true
    /\ malformed (RuleBasedPlanner.open_url url) = false.
Proof.
  exact (plan_single_open_url RuleBasedPlanner.ascii_lower RuleBasedPlanner.ascii_strip
           "open https://example.com" _ eq_refl).
Defined.

Lemma rule_based_execute_witness :
  exists url,
    [RuleBasedPlanner.open_url "https://www.google.com/search?q=testing+shortcuts"]
    = [RuleBasedPlanner.open_url url]
    /\ String.prefix "http" url = true
    /\ ActionExecutor.execute Fake.json_loads
         (ActionExecutor.mkExecutor Fake.controller
            (RuleBasedPlanner.plan RuleBasedPlanner.ascii_lower RuleBasedPlanner.ascii_strip))
         "search for testing shortcuts" false Fake.world0
       = match open_tab Fake.json_loads Fake.controller url Fake.world0 with
         | (inr v, w') => (inr [inr v], w')
         | (inl e, w') => (inl (Raised e), w')
         end
    /\ trace (snd (ActionExecutor.execute Fake.json_loads
                     (ActionExecutor.mkExecutor Fake.controller
                        (RuleBasedPlanner.plan RuleBasedPlanner.ascii_lower
                                               RuleBasedPlanner.ascii_strip))
                     "search for testing shortcuts" false Fake.world0))
       = trace Fake.world0
           ++ [EvRequest (base_url Fake.controller +:+ "/json/new?url="
                          +:+ Urllib.quote_plus url)].
Proof.
  exact (rule_based_execute Fake.json_loads RuleBasedPlanner.ascii_lower
           RuleBasedPlanner.ascii_strip Fake.controller "search for testing shortcuts"
           _ Fake.world0 eq_refl).
Defined.

(** [test_action_executor_executes_actions], against the fake endpoint. *)
Example action_executor_executes_actions :
  ActionExecutor.execute Fake.json_loads
    (ActionExecutor.mkExecutor Fake.controller
       (RuleBasedPlanner.plan RuleBasedPlanner.ascii_lower RuleBasedPlanner.ascii_strip))
    "open https://example.com" false Fake.world0
  = (inr [inr (Fake.json_object "id" "target-1")],
     mkWorld 0 [] [EvRequest "http://127.0.0.1:9333/json/new?url=https%3A%2F%2Fexample.com"]).
Proof. reflexivity. Qed.

Lemma main_launch_failure_witness :
  match Doubles.failed_launch with
  | Some (inl e, self1, w1) =>
      Cli.main_run Fake.json_loads Fake.refusing Fake.process_factory
                   RuleBasedPlanner.ascii_lower RuleBasedPlanner.ascii_strip
                   40 (Doubles.run_args false false) Fake.world0
      = Some (Cli.mkOutcome (inl (Raised e)) [] self1 w1)
      /\ exn_cls e = TimeoutError
      /\ _process self1 = Some 0%nat
  | _ => False
  end.
Proof.
  unfold Doubles.failed_launch. cbv beta iota.
  match goal with
  | |- _ = Some (Cli.mkOutcome (inl (Raised ?e)) [] ?s ?w) /\ _ =>
      destruct (main_launch_failure Fake.json_loads Fake.refusing Fake.process_factory
                  RuleBasedPlanner.ascii_lower RuleBasedPlanner.ascii_strip
                  40 (Doubles.run_args false false) Fake.world0 e s w eq_refl
                  ltac:(vm_compute; reflexivity))
        as (Hmain & _ & _)
  end.
  split; [exact Hmain|]. split; reflexivity.
Defined.

Lemma main_cleans_up_witness :
  exists out,
    Cli.main_run Fake.json_loads Fake.http_client Fake.process_factory
                 RuleBasedPlanner.ascii_lower RuleBasedPlanner.ascii_strip
                 40 (Doubles.run_args false false) Fake.world0 = Some out
    /\ is_browser_running (Cli.controller out) (Cli.world out) = false.
Proof.
  assert (Hlaunch : exists self1 w1, Doubles.good_launch = Some (inr tt, self1, w1)).
  { unfold Doubles.good_launch. by eexists _, _. }
  destruct Hlaunch as (self1 & w1 & Hlaunch).
  destruct (main_cleans_up Fake.json_loads Fake.http_client Fake.process_factory
              RuleBasedPlanner.ascii_lower RuleBasedPlanner.ascii_strip
              40 (Doubles.run_args false false) Fake.world0 self1 w1 eq_refl)
    as (out & Hmain & _ & Hstopped).
  { rewrite <- Hlaunch. vm_compute. reflexivity. }
  exists out. split; [exact Hmain | exact Hstopped].
Defined.

Lemma main_no_launch_witness :
  exists out,
    Cli.main_run Fake.json_loads Fake.http_client Fake.process_factory
                 RuleBasedPlanner.ascii_lower RuleBasedPlanner.ascii_strip
                 0 (Doubles.run_args true false) Fake.world0 = Some out
    /\ processes (Cli.world out) = [].
Proof.
  destruct (main_no_launch Fake.json_loads Fake.http_client Fake.process_factory
              RuleBasedPlanner.ascii_lower RuleBasedPlanner.ascii_strip
              0 (Doubles.run_args true false) Fake.world0 eq_refl)
    as (out & Hmain & _ & Hprocs & _).
  exists out. split; [exact Hmain | exact Hprocs].
Defined.
